(** * A shallow embedding of the web research pipeline

    The development follows the four modules of the program:
    [search_tool] (SerpAPI client), [scraper] (page fetcher and cleaner),
    [summarizer] (Gemini client) and [agent] (the orchestrator).

    Python values are embedded as [pyval]; a Python [dict] with string keys
    is a [gmap string pyval]; a Python list is a [list].  Exceptions are
    values of [exn] threaded through a result type.  Every network call is
    an oracle: the n-th call of a run may answer anything. *)

From Stdlib Require Import ZArith Lia.
From stdpp Require Import gmap strings list fin_maps pretty.

Set Warnings "-register-all".
#[local] Open Scope Z_scope.

(** ** Python values, exceptions and string primitives *)

Module Py.

Inductive pyval :=
| PyNone
| PyBool (b : bool)
| PyInt (z : Z)
| PyStr (s : string)
| PyList (l : list pyval)
| PyDict (d : gmap string pyval).

Abbreviation dict := (gmap string pyval).

(** The exception classes the program distinguishes in its [except]
    clauses; each carries what [str(e)] prints. *)
Inductive exn :=
| Timeout (msg : string)
| HTTPError (status : Z) (msg : string)
| TooManyRedirects (msg : string)
| RequestException (msg : string)
| KeyError (key : string)
| Exception (msg : string).

Definition str_exn (e : exn) : string :=
  match e with
  | Timeout msg => msg
  | HTTPError _ msg => msg
  | TooManyRedirects msg => msg
  | RequestException msg => msg
  | KeyError key => "'" +:+ key +:+ "'"
  | Exception msg => msg
  end.

Inductive res (A : Type) :=
| Ok (a : A)
| Raise (e : exn).
Arguments Ok {A} a.
Arguments Raise {A} e.

(** [len(s)] *)
Definition len (s : string) : Z := Z.of_nat (String.length s).

Fixpoint str_take (n : nat) (s : string) : string :=
  match n, s with
  | O, _ => ""
  | S _, EmptyString => ""
  | S n', String c s' => String c (str_take n' s')
  end.

Fixpoint str_drop (n : nat) (s : string) : string :=
  match n, s with
  | O, _ => s
  | S _, EmptyString => ""
  | S n', String _ s' => str_drop n' s'
  end.

(** [s[:n]] for a non-negative bound [n] *)
Definition slice_to (s : string) (n : Z) : string := str_take (Z.to_nat n) s.

Definition lower_ascii (c : Ascii.ascii) : Ascii.ascii :=
  let n := Ascii.N_of_ascii c in
  if ((65 <=? n) && (n <=? 90))%N then Ascii.ascii_of_N (n + 32) else c.

(** [s.lower()] on ASCII text *)
Fixpoint lower (s : string) : string :=
  match s with
  | EmptyString => ""
  | String c s' => String (lower_ascii c) (lower s')
  end.

(** [s.endswith(suffix)] *)
Definition endswith (s suffix : string) : bool :=
  (String.length suffix <=? String.length s)%nat
  && String.eqb (str_drop (String.length s - String.length suffix) s) suffix.

(** [sub in s] *)
Fixpoint contains (sub s : string) : bool :=
  String.prefix sub s
  || match s with
     | EmptyString => false
     | String _ s' => contains sub s'
     end.

End Py.

(** ** search_tool.py: the SerpAPI client *)

Module SearchTool.
Import Py.

(** The [params] dictionary of the GET request. *)
Record params := Params { q : string; api_key : string; engine : string; num : Z }.

(** What the program reads of a [requests.Response]: the status code
    and the decoded JSON object ([response.json()] may raise), seen
    through its entries that are lists of result objects.  An answer whose
    [organic_results] is not a list of objects is outside this model. *)
Record response := Response {
  status_code : Z;
  json : res (gmap string (list dict))
}.

(** How an iteration of a retry loop ends: [return] or the next turn. *)
Inductive flow (A : Type) :=
| Return (a : A)
| Continue.
Arguments Return {A} a.
Arguments Continue {A}.

(** [gets] counts the GET requests sent, [sleeps] lists the arguments
    of [time.sleep] in order. *)
Record state := State { gets : nat; sleeps : list Z }.

Definition sleep (seconds : Z) (st : state) : state :=
  State (gets st) (sleeps st ++ [seconds]).

Definition base_url : string := "https://serpapi.com/search".

Section Search.
Variable self_api_key : string.
(** [requests.get]: the answer to the n-th request of the run. *)
Variable requests_get : nat -> string -> params -> res response.
(** [response.raise_for_status()]: the message of the [HTTPError] it
    raises, if it raises. *)
Variable raise_for_status : response -> option string.

(** The [try] block of one attempt. *)
Definition try_search (p : params) (st : state) : res (list dict) * state :=
  let st' := State (S (gets st)) (sleeps st) in
  match requests_get (gets st) base_url p with
  | Raise e => (Raise e, st')
  | Ok response =>
      if status_code response =? 401 then (Ok [], st')
      else
        match raise_for_status response with
        | Some msg => (Raise (HTTPError (status_code response) msg), st')
        | None =>
            match json response with
            | Raise e => (Raise e, st')
            | Ok results =>
                match results !! "organic_results" with
                | Some organic_results => (Ok organic_results, st')
                | None => (Ok [], st')
                end
            end
        end
  end.

(** One attempt with its [except] clauses. *)
Definition search_attempt (p : params) (max_retries attempt : Z) (st : state)
  : flow (list dict) * state :=
  match try_search p st with
  | (Ok results, st') => (Return results, st')
  | (Raise (HTTPError status _), st') =>
      if (status =? 429) && (attempt <? max_retries - 1)
      then (Continue, sleep (2 ^ attempt) st')
      else (Return [], st')
  | (Raise _, st') =>
      if attempt <? max_retries - 1
      then (Continue, sleep (2 ^ attempt) st')
      else (Return [], st')
  end.

(** [for attempt in range(max_retries)], then [return []]. *)
Fixpoint search_loop (p : params) (max_retries : Z) (attempts : list Z) (st : state)
  : list dict * state :=
  match attempts with
  | [] => ([], st)
  | attempt :: attempts' =>
      match search_attempt p max_retries attempt st with
      | (Return results, st') => (results, st')
      | (Continue, st') => search_loop p max_retries attempts' st'
      end
  end.

Definition search (query : string) (num_results max_retries : Z) (st : state)
  : list dict * state :=
  let p := Params query self_api_key "google" (Z.min num_results 10) in
  search_loop p max_retries (seqZ 0 max_retries) st.

Definition processed_result (result : dict) : dict :=
  {[ "title" := default (PyStr "No Title") (result !! "title");
     "snippet" := default (PyStr "No snippet available") (result !! "snippet");
     "link" := default (PyStr "#") (result !! "link") ]}.

Definition get_top_results (query : string) (num_results : Z) (st : state)
  : list dict * state :=
  let '(raw_results, st') := search query num_results 3 st in
  (processed_result <$> raw_results, st').

(** The requests numbered [start], ..., [start + k - 1] are all answered
    429 and rejected by [raise_for_status]. *)
Definition rate_limited (p : params) (start k : nat) : Prop :=
  forall j : nat, (j < k)%nat ->
    exists r msg,
      requests_get (start + j) base_url p = Ok r
      /\ status_code r = 429 /\ raise_for_status r = Some msg.

End Search.

(** The sleeps of [k] retried attempts numbered from [i]:
    [2 ** i], ..., [2 ** (i + k - 1)]. *)
Definition backoff_from (i : Z) (k : nat) : list Z :=
  (fun attempt => 2 ^ attempt) <$> seqZ i (Z.of_nat k).

Definition backoff (k : nat) : list Z := backoff_from 0 k.

(** The three keys of a processed result. *)
Definition hit_keys : gset string := {[ "title"; "snippet"; "link" ]}.

End SearchTool.

(** ** scraper.py: the page fetcher *)

Module Scraper.
Import Py.

(** What the program reads of a [requests.Response]: status, the
    [Content-Type] header if any, and the body. *)
Record response := Response {
  status_code : Z;
  content_type : option string;
  text : string
}.

Inductive flow (A : Type) :=
| Return (a : A)
| Continue.
Arguments Return {A} a.
Arguments Continue {A}.

Record state := State { gets : nat; sleeps : list Z }.

Definition sleep (seconds : Z) (st : state) : state :=
  State (gets st) (sleeps st ++ [seconds]).

(** Default of [max_retries] in [scrape]. *)
Definition default_max_retries : Z := 2.

Definition skip_extensions : list string :=
  [".pdf"; ".jpg"; ".jpeg"; ".png"; ".gif"; ".mp4"; ".zip"; ".doc"; ".docx";
   ".ppt"; ".pptx"].

Definition _should_skip_url (url : string) : bool :=
  existsb (fun ext => endswith (lower url) ext) skip_extensions.

Section Scrape.
(** [urlparse(url)]: scheme and netloc, unless it raises. *)
Variable urlparse : string -> res (string * string).
(** [requests.get]: the answer to the n-th request of the run. *)
Variable requests_get : nat -> string -> res response.
(** [response.raise_for_status()]: the message of the [HTTPError] it
    raises, if it raises. *)
Variable raise_for_status : response -> option string.
(** [self._extract_main_content(BeautifulSoup(text, 'html.parser'))]:
    the cleaned text of the page, unless parsing raises. *)
Variable _extract_main_content : string -> res string.

Definition _is_valid_url (url : string) : bool :=
  match urlparse url with
  | Ok (scheme, netloc) => negb (String.eqb scheme "") && negb (String.eqb netloc "")
  | Raise _ => false
  end.

(** The [try] block of one attempt. *)
Definition try_scrape (url : string) (st : state) : res (bool * string) * state :=
  let st' := State (S (gets st)) (sleeps st) in
  match requests_get (gets st) url with
  | Raise e => (Raise e, st')
  | Ok response =>
      match raise_for_status response with
      | Some msg => (Raise (HTTPError (status_code response) msg), st')
      | None =>
          let content_type := lower (default "" (content_type response)) in
          if negb (contains "text/html" content_type) then
            (Ok (false, "Not an HTML page. Content-Type: " +:+ content_type), st')
          else
            match _extract_main_content (text response) with
            | Raise e => (Raise e, st')
            | Ok content =>
                if String.eqb content "" || (len content <? 100) then
                  (Ok (false, "Content too short or empty."), st')
                else
                  let content :=
                    if 15000 <? len content
                    then slice_to content 15000 +:+ "..."
                    else content in
                  (Ok (true, content), st')
            end
      end
  end.

(** One attempt with its [except] clauses. *)
Definition scrape_attempt (url : string) (max_retries attempt : Z) (st : state)
  : flow (bool * string) * state :=
  match try_scrape url st with
  | (Ok r, st') => (Return r, st')
  | (Raise (Timeout _), st') =>
      if attempt <? max_retries - 1
      then (Continue, sleep 1 st')
      else (Return (false, "Request timed out."), st')
  | (Raise (HTTPError _ _ as e), st') =>
      (Return (false, "HTTP error: " +:+ str_exn e), st')
  | (Raise (TooManyRedirects _), st') =>
      (Return (false, "Too many redirects."), st')
  | (Raise (RequestException _ as e), st') =>
      (Return (false, "Request error: " +:+ str_exn e), st')
  | (Raise e, st') =>
      (Return (false, "Error: " +:+ str_exn e), st')
  end.

(** [for attempt in range(max_retries)], then the final [return]. *)
Fixpoint scrape_loop (url : string) (max_retries : Z) (attempts : list Z) (st : state)
  : (bool * string) * state :=
  match attempts with
  | [] => ((false, "Failed after multiple attempts."), st)
  | attempt :: attempts' =>
      match scrape_attempt url max_retries attempt st with
      | (Return r, st') => (r, st')
      | (Continue, st') => scrape_loop url max_retries attempts' st'
      end
  end.

Definition scrape (url : string) (max_retries : Z) (st : state)
  : (bool * string) * state :=
  if negb (_is_valid_url url) then ((false, "Invalid URL format."), st)
  else if _should_skip_url url then
    ((false, "Skipping URL that may contain non-HTML content: " +:+ url), st)
  else scrape_loop url max_retries (seqZ 0 max_retries) st.

(** The requests numbered [start], ..., [start + k - 1] all time out. *)
Definition timeouts (url : string) (start k : nat) : Prop :=
  forall j : nat, (j < k)%nat -> exists msg, requests_get (start + j) url = Raise (Timeout msg).

End Scrape.



End Scraper.

(** ** summarizer.py: the Gemini client *)

Module Summarizer.
Import Py.

(** What the program reads of the provider's response: whether it has
    a [text] attribute, and its value. *)
Inductive response :=
| NoText
| WithText (text : string).

(** The prompts sent so far, in order. *)
Record state := State { prompts : list string }.

Definition dq : string := String (Ascii.ascii_of_nat 34) "".
Definition nl : string := String (Ascii.ascii_of_nat 10) "".

Definition _create_summary_prompt (content query length_instruction : string) : string :=
  "
        Please provide a " +:+
  length_instruction +:+
  " summary of the following content in relation to this search query: " +:+
  dq +:+
  query +:+
  dq +:+
  "
        
        Focus on:
        1. Key facts and information directly relevant to the query
        2. Main insights, findings, or advancements mentioned
        3. Any important conclusions or future implications
        
        Content:
        " +:+
  content +:+
  "
        
        Format your summary with clear sections and bullet points where appropriate to enhance readability.
        Use markdown formatting to improve structure and highlight important information.
        ".

Definition _create_comprehensive_prompt (combined_content query : string) : string :=
  "
        Please synthesize a comprehensive research conclusion from the following summaries related to this search query: " +:+
  dq +:+
  query +:+
  dq +:+
  "
        
        Your task is to:
        1. Identify the main findings and key points across all sources
        2. Note any consensus or disagreements between sources
        3. Highlight the most important and relevant information
        4. Organize the information logically with clear section headings
        5. Include a brief conclusion with the most important takeaways
        
        Here are the summaries from various sources:
        " +:+
  combined_content +:+
  "
        
        Please create a well-structured, comprehensive research conclusion that synthesizes all this information.
        Include a " +:+
  dq +:+
  "Key Findings" +:+
  dq +:+
  " section at the beginning and a " +:+
  dq +:+
  "Conclusion" +:+
  dq +:+
  " at the end.
        Use markdown formatting to improve structure and readability.
        ".

(** The prompt [summarize] sends. *)
Definition summary_prompt (content query : string) (is_brief : bool) : string :=
  _create_summary_prompt content query
    (if is_brief then "brief and concise (100-150 words)"
     else "comprehensive (300-500 words)").

Section Summarize.
(** [model.generate_content]: the answer to the n-th prompt of the
    run; the provider may raise. *)
Variable generate_content : nat -> string -> res response.
(** [str(v)] as an f-string formats a value. *)
Variable str : pyval -> string.

Definition call_generate_content (prompt : string) (st : state)
  : res response * state :=
  (generate_content (length (prompts st)) prompt, State (prompts st ++ [prompt])).

Definition summarize (content query : string) (is_brief : bool) (st : state)
  : (bool * string) * state :=
  let length_instruction :=
    if is_brief then "brief and concise (100-150 words)"
    else "comprehensive (300-500 words)" in
  let prompt := _create_summary_prompt content query length_instruction in
  match call_generate_content prompt st with
  | (Raise e, st') => ((false, "Failed to summarize: " +:+ str_exn e), st')
  | (Ok NoText, st') => ((false, "Error: Unexpected response format from API"), st')
  | (Ok (WithText summary), st') =>
      if String.eqb summary "" || (len summary <? 50) then
        ((false, "Generated summary was too short or empty"), st')
      else ((true, summary), st')
  end.

Definition getitem (d : dict) (k : string) : res pyval :=
  match d !! k with
  | Some v => Ok v
  | None => Raise (KeyError k)
  end.

(** [for i, summary_data in enumerate(summaries, 1)] *)
Fixpoint combine (i : Z) (summaries : list dict) (combined_content : string)
  : res string :=
  match summaries with
  | [] => Ok combined_content
  | summary_data :: summaries' =>
      match getitem summary_data "title" with
      | Raise e => Raise e
      | Ok title =>
          let combined_content :=
            combined_content +:+ (nl +:+ nl +:+ "SOURCE " +:+ pretty i +:+ ": "
                                  +:+ str title +:+ nl) in
          match getitem summary_data "summary" with
          | Raise e => Raise e
          | Ok summary =>
              let combined_content := combined_content +:+ (str summary +:+ nl) in
              match getitem summary_data "link" with
              | Raise e => Raise e
              | Ok link =>
                  let combined_content :=
                    combined_content +:+ ("URL: " +:+ str link +:+ nl) in
                  combine (i + 1) summaries' combined_content
              end
          end
      end
  end.

Definition create_comprehensive_summary (summaries : list dict) (query : string)
    (st : state) : (bool * string) * state :=
  match combine 1 summaries "" with
  | Raise e => ((false, "Failed to create comprehensive summary: " +:+ str_exn e), st)
  | Ok combined_content =>
      let prompt := _create_comprehensive_prompt combined_content query in
      match call_generate_content prompt st with
      | (Raise e, st') =>
          ((false, "Failed to create comprehensive summary: " +:+ str_exn e), st')
      | (Ok NoText, st') =>
          ((false, "Error: Unexpected response format from API"), st')
      | (Ok (WithText comprehensive_summary), st') =>
          ((true, comprehensive_summary), st')
      end
  end.

End Summarize.

(** A source summary with the three keys the synthesis prompt reads. *)
Definition complete_summary (d : dict) : bool :=
  match d !! "title", d !! "summary", d !! "link" with
  | Some _, Some _, Some _ => true
  | _, _, _ => false
  end.

(** The first key of [title], [summary], [link], in the order the prompt
    reads them, that a dictionary lacks. *)
Definition first_missing_key (d : dict) : option string :=
  match d !! "title", d !! "summary", d !! "link" with
  | None, _, _ => Some "title"
  | Some _, None, _ => Some "summary"
  | Some _, Some _, None => Some "link"
  | Some _, Some _, Some _ => None
  end.

End Summarizer.

(** ** agent.py: the orchestrator *)

Module Agent.
Import Py.

(** The calls made on the three collaborators, in program order (what a
    mock of each collaborator records). *)
Inductive call :=
| CallGetTopResults (query : string) (num_results : Z)
| CallScrape (url : pyval)
| CallSummarize (content query : string) (is_brief : bool)
| CallCreateComprehensiveSummary (summaries : list dict) (query : string).

Record state (World : Type) := State { world : World; calls : list call }.
Arguments State {World} world calls.
Arguments world {World} s.
Arguments calls {World} s.

(** State and exception monad of the orchestrator. *)
Definition M (World A : Type) : Type := state World -> res A * state World.

Definition ret {World A} (a : A) : M World A := fun st => (Ok a, st).

Definition bind {World A B} (m : M World A) (k : A -> M World B) : M World B :=
  fun st =>
    match m st with
    | (Ok a, st') => k a st'
    | (Raise e, st') => (Raise e, st')
    end.

Notation "'let*' p ':=' m 'in' k" := (bind m (fun p => k))
  (at level 10, p pattern, m at level 100, k at level 200,
   format "'[v' 'let*'  p  ':='  m  'in' '/' k ']'").

(** [d[k]], raising [KeyError] on a missing key *)
Definition getitem {World} (d : dict) (k : string) : M World pyval :=
  fun st =>
    match d !! k with
    | Some v => (Ok v, st)
    | None => (Raise (KeyError k), st)
    end.

(** [content[:1000] + "..." if len(content) > 1000 else content] *)
Definition preview (content : string) : string :=
  if 1000 <? len content then slice_to content 1000 +:+ "..." else content.

Definition no_results : dict :=
  {[ "success" := PyBool false;
     "error" := PyStr "No search results found";
     "results" := PyList [];
     "comprehensive_summary" := PyNone ]}.

Section Research.
Context {World : Type}.

(** The collaborators held by the agent: [self.search_tool],
    [self.scraper] and [self.summarizer]. *)
Variable get_top_results : string -> Z -> World -> list dict * World.
Variable scrape : pyval -> World -> (bool * string) * World.
Variable summarize : string -> string -> bool -> World -> (bool * string) * World.
Variable create_comprehensive_summary :
  list dict -> string -> World -> (bool * string) * World.

Definition call_get_top_results (query : string) (num_results : Z)
  : M World (list dict) :=
  fun st =>
    let '(r, w) := get_top_results query num_results (world st) in
    (Ok r, State w (calls st ++ [CallGetTopResults query num_results])).

Definition call_scrape (url : pyval) : M World (bool * string) :=
  fun st =>
    let '(r, w) := scrape url (world st) in
    (Ok r, State w (calls st ++ [CallScrape url])).

Definition call_summarize (content query : string) (is_brief : bool)
  : M World (bool * string) :=
  fun st =>
    let '(r, w) := summarize content query is_brief (world st) in
    (Ok r, State w (calls st ++ [CallSummarize content query is_brief])).

Definition call_create_comprehensive_summary
    (summaries : list dict) (query : string) : M World (bool * string) :=
  fun st =>
    let '(r, w) := create_comprehensive_summary summaries query (world st) in
    (Ok r, State w (calls st ++ [CallCreateComprehensiveSummary summaries query])).

(** Body of the [for i, result in enumerate(search_results)] loop:
    returns [result_data] and the updated [successful_summaries]. *)
Definition process_result (query : string) (brief_summaries : bool)
    (result : dict) (successful_summaries : list dict)
  : M World (dict * list dict) :=
  let* title := getitem result "title" in
  let* link := getitem result "link" in
  let* snippet := getitem result "snippet" in
  let result_data : dict :=
    {[ "title" := title; "link" := link; "snippet" := snippet;
       "success" := PyBool false ]} in
  let* url := getitem result "link" in
  let* (scrape_success, content) := call_scrape url in
  if negb scrape_success then
    ret (<["error" := PyStr content]> result_data, successful_summaries)
  else
    let* (summary_success, summary) :=
      call_summarize content query brief_summaries in
    if negb summary_success then
      ret (<["error" := PyStr summary]> result_data, successful_summaries)
    else
      let result_data := <["success" := PyBool true]> result_data in
      let result_data := <["summary" := PyStr summary]> result_data in
      let result_data := <["content" := PyStr (preview content)]> result_data in
      let* title' := getitem result "title" in
      let* link' := getitem result "link" in
      ret (result_data,
           successful_summaries ++
             [ {[ "title" := title'; "link" := link';
                  "summary" := PyStr summary ]} ]).

(** The loop itself.  The list iterator reads position [i] of the very
    list that [search_results[i] = result_data] overwrites; it stops
    when [i] runs past the end.  [fuel] is the number of iterations
    still allowed and is started at [len(search_results)]. *)
Fixpoint process_results (fuel i : nat) (query : string) (brief_summaries : bool)
    (search_results successful_summaries : list dict)
  : M World (list dict * list dict) :=
  match fuel with
  | O => ret (search_results, successful_summaries)
  | S fuel' =>
      match search_results !! i with
      | None => ret (search_results, successful_summaries)
      | Some result =>
          let* (result_data, successful_summaries') :=
            process_result query brief_summaries result successful_summaries in
          process_results fuel' (S i) query brief_summaries
            (<[i := result_data]> search_results) successful_summaries'
      end
  end.

(** Step 3: the synthesis call, made only on a non-empty list.  The
    pair is [(comprehensive_success, comprehensive_summary)]. *)
Definition synthesize (successful_summaries : list dict) (query : string)
  : M World (bool * pyval) :=
  match successful_summaries with
  | [] => ret (false, PyNone)
  | _ :: _ =>
      let* (comprehensive_success, comprehensive_summary) :=
        call_create_comprehensive_summary successful_summaries query in
      ret (comprehensive_success, PyStr comprehensive_summary)
  end.

Definition research (query : string) (num_results : Z) (brief_summaries : bool)
  : M World dict :=
  let* search_results := call_get_top_results query num_results in
  match search_results with
  | [] => ret no_results
  | _ :: _ =>
      let* (search_results, successful_summaries) :=
        process_results (length search_results) 0 query brief_summaries
          search_results [] in
      let* (comprehensive_success, comprehensive_summary) :=
        synthesize successful_summaries query in
      ret ({[ "success" := PyBool (0 <? Z.of_nat (length successful_summaries));
              "query" := PyStr query;
              "results" := PyList (PyDict <$> search_results);
              "comprehensive_summary" :=
                if comprehensive_success then comprehensive_summary else PyNone ]}
           : dict)
  end.

(** The loop seen as a fold over the hits still to process: one item per
    hit, without the list being overwritten.  The in-place loop is shown
    below to compute the same. *)
Fixpoint run_hits (query : string) (brief : bool) (hits sums : list dict)
  : M World (list dict * list dict) :=
  match hits with
  | [] => ret ([], sums)
  | hit :: hits' =>
      let* (item, sums') := process_result query brief hit sums in
      let* (items, sums'') := run_hits query brief hits' sums' in
      ret (item :: items, sums'')
  end.

End Research.

(** The dictionary [result_data] starts from. *)
Definition base_item (title link snippet : pyval) : dict :=
  {[ "title" := title; "link" := link; "snippet" := snippet;
     "success" := PyBool false ]}.

(** The dictionary returned by step 4. *)
Definition compiled (query : string) (items sums : list dict)
    (comprehensive_success : bool) (comprehensive_summary : pyval) : dict :=
  {[ "success" := PyBool (0 <? Z.of_nat (length sums));
     "query" := PyStr query;
     "results" := PyList (PyDict <$> items);
     "comprehensive_summary" :=
       if comprehensive_success then comprehensive_summary else PyNone ]}.

(** A search hit as the Result Fetcher builds it: the three keys are
present. *)
Definition has_key (k : string) (d : dict) : bool :=
  match d !! k with
  | Some _ => true
  | None => false
  end.

Definition is_hit (d : dict) : bool :=
  has_key "title" d && has_key "link" d && has_key "snippet" d.

(** [item["success"] is True] *)
Definition succeeded (item : dict) : bool :=
  match item !! "success" with
  | Some (PyBool true) => true
  | _ => false
  end.

(** The two shapes of a processed item. *)
Definition successful_item (item : dict) : Prop :=
  item !! "success" = Some (PyBool true)
  /\ (exists summary, item !! "summary" = Some (PyStr summary))
  /\ (exists content, item !! "content" = Some (PyStr (preview content)))
  /\ item !! "error" = None.

Definition failed_item (item : dict) : Prop :=
  item !! "success" = Some (PyBool false)
  /\ (exists e, item !! "error" = Some (PyStr e))
  /\ item !! "summary" = None
  /\ item !! "content" = None.

(** An item keeps the three fields of the hit it was made from. *)
Definition same_source (hit item : dict) : Prop :=
  item !! "title" = hit !! "title"
  /\ item !! "link" = hit !! "link"
  /\ item !! "snippet" = hit !! "snippet".

(** What the item of a hit holds, given the answer [scraped] of the
    scraper for the hit's link and the answer [summarized] of the
    summarizer for the scraped content (read only when the scraper
    succeeded). *)
Definition item_outcome (item : dict) (scraped summarized : bool * string) : Prop :=
  if fst scraped && fst summarized then
    item !! "success" = Some (PyBool true)
    /\ item !! "summary" = Some (PyStr (snd summarized))
    /\ item !! "content"
       = Some (PyStr (if 1000 <? len (snd scraped)
                      then slice_to (snd scraped) 1000 +:+ "..."
                      else snd scraped))
    /\ item !! "error" = None
  else
    item !! "success" = Some (PyBool false)
    /\ item !! "error"
       = Some (PyStr (if fst scraped then snd summarized else snd scraped))
    /\ item !! "summary" = None
    /\ item !! "content" = None.

(** The URLs passed to the scraper, in call order. *)
Fixpoint scraped_urls (cs : list call) : list pyval :=
  match cs with
  | [] => []
  | CallScrape url :: cs' => url :: scraped_urls cs'
  | _ :: cs' => scraped_urls cs'
  end.

(** The entry of the synthesis input made from a successful item. *)
Definition summary_entry (item : dict) : dict :=
  {[ "title" := default PyNone (item !! "title");
     "link" := default PyNone (item !! "link");
     "summary" := default PyNone (item !! "summary") ]}.

(** The first key of [title], [link], [snippet], in the order the loop
    reads them, that a hit lacks. *)
Definition missing_hit_key (hit : dict) : option string :=
  match hit !! "title", hit !! "link", hit !! "snippet" with
  | None, _, _ => Some "title"
  | Some _, None, _ => Some "link"
  | Some _, Some _, None => Some "snippet"
  | Some _, Some _, Some _ => None
  end.

End Agent.

(** ** Concrete collaborators, for running the model *)

Module Scenario.
Import Py.

(** [raise_for_status] as [requests] implements it: 4xx and 5xx raise. *)
Definition error_status (status : Z) : option string :=
  if (400 <=? status) && (status <? 600)
  then Some (pretty status +:+ " Error") else None.

Definition raw_result : dict :=
  {[ "position" := PyInt 1;
     "title" := PyStr "Test Result 1";
     "link" := PyStr "https://example.com/1";
     "snippet" := PyStr "This is the first test result." ]}.

Definition serp_ok : SearchTool.response :=
  SearchTool.Response 200 (Ok {[ "organic_results" := [raw_result] ]}).

(** No answer to the first request, a good answer to the later ones. *)
Definition flaky_get (n : nat) (url : string) (p : SearchTool.params)
  : res SearchTool.response :=
  match n with
  | O => Raise (RequestException "Connection refused")
  | S _ => Ok serp_ok
  end.

(** A server error to the first request, a good answer to the later ones. *)
Definition failing_get (n : nat) (url : string) (p : SearchTool.params)
  : res SearchTool.response :=
  match n with
  | O => Ok (SearchTool.Response 500 (Raise (Exception "no body")))
  | S _ => Ok serp_ok
  end.

(** Rate limited on the first request, a good answer to the later ones. *)
Definition limited_get (n : nat) (url : string) (p : SearchTool.params)
  : res SearchTool.response :=
  match n with
  | O => Ok (SearchTool.Response 429 (Raise (Exception "no body")))
  | S _ => Ok serp_ok
  end.

Definition serp_status (r : SearchTool.response) : option string :=
  error_status (SearchTool.status_code r).

Definition test_params : SearchTool.params :=
  SearchTool.Params "test query" "mock_api_key" "google" 5.

(** A page of the scraper's tests, already cleaned. *)
Definition sample_text : string :=
  "Main Heading This is the first paragraph with important content. This is the second paragraph with more important content.".

Fixpoint str_repeat (n : nat) (s : string) : string :=
  match n with
  | O => ""
  | S n' => s +:+ str_repeat n' s
  end.

(** 16,000 characters of cleaned text. *)
Definition long_text : string := str_repeat (Z.to_nat 1600) "0123456789".

(** A stand-in for [urlparse] on the URLs of the scenario. *)
Definition urlparse (url : string) : res (string * string) :=
  if String.prefix "https://" url then Ok ("https", str_drop 8 url)
  else Ok ("", "").

Definition page_status (r : Scraper.response) : option string :=
  error_status (Scraper.status_code r).

Definition html_page : Scraper.response :=
  Scraper.Response 200 (Some "text/html; charset=utf-8") "<html></html>".

(** A timeout on the first request, then the page. *)
Definition slow_page (n : nat) (url : string) : res Scraper.response :=
  match n with
  | O => Raise (Timeout "Read timed out.")
  | S _ => Ok html_page
  end.


Definition extract_sample (html : string) : res string := Ok sample_text.
Definition extract_long (html : string) : res string := Ok long_text.
Definition extract_short (html : string) : res string := Ok "Moved.".

(** The page at once. *)
Definition quick_page (n : nat) (url : string) : res Scraper.response := Ok html_page.

(** Collaborators of the orchestrator, as its tests mock them. *)
Definition hit_a : dict :=
  {[ "title" := PyStr "Test Result";
     "link" := PyStr "https://example.com";
     "snippet" := PyStr "Test snippet" ]}.

Definition hit_b : dict :=
  {[ "title" := PyStr "Broken Result";
     "link" := PyStr "https://example.org/broken";
     "snippet" := PyStr "Broken snippet" ]}.

Definition top_results (query : string) (num_results : Z) (w : unit)
  : list dict * unit :=
  if String.eqb query "test query" then ([hit_a], w)
  else if String.eqb query "broken query" then ([hit_b], w)
  else if String.eqb query "two hits" then ([hit_a; hit_b], w)
  else ([], w).

Definition scrape_mock (url : pyval) (w : unit) : (bool * string) * unit :=
  match url with
  | PyStr s =>
      if String.eqb s "https://example.com" then ((true, "Test content"), w)
      else ((false, "Failed to scrape content"), w)
  | _ => ((false, "Invalid URL format."), w)
  end.

Definition summarize_mock (content query : string) (is_brief : bool) (w : unit)
  : (bool * string) * unit :=
  ((true, "Test summary"), w).

Definition synthesis_mock (summaries : list dict) (query : string) (w : unit)
  : (bool * string) * unit :=
  ((true, "Comprehensive summary"), w).

Definition synthesis_failing (summaries : list dict) (query : string) (w : unit)
  : (bool * string) * unit :=
  ((false, "Failed to create comprehensive summary: quota exceeded"), w).

Definition research (query : string) : res dict * Agent.state unit :=
  Agent.research top_results scrape_mock summarize_mock synthesis_mock
    query 5 false (Agent.State tt []).

(** Two summaries for the synthesis, and a provider that answers with
    very little. *)
Definition two_summaries : list dict :=
  [ {[ "title" := PyStr "Source 1"; "link" := PyStr "https://example.com/1";
       "summary" := PyStr "Summary of source 1" ]};
    {[ "title" := PyStr "Source 2"; "link" := PyStr "https://example.com/2";
       "summary" := PyStr "Summary of source 2" ]} ].

Definition str_mock (v : pyval) : string :=
  match v with
  | PyStr s => s
  | PyNone => "None"
  | PyBool true => "True"
  | PyBool false => "False"
  | PyInt z => pretty z
  | PyList _ => "[...]"
  | PyDict _ => "{...}"
  end.

Definition terse_provider (n : nat) (prompt : string) : res Summarizer.response :=
  Ok (Summarizer.WithText "Short.").

(** A timeout on the first request, then no connection. *)
Definition slow_refused_page (n : nat) (url : string) : res Scraper.response :=
  match n with
  | O => Raise (Timeout "Read timed out.")
  | S _ => Raise (RequestException "Connection refused")
  end.

(** A hit that lost its title, and a Result Fetcher that lets it through. *)
Definition untitled_hit : dict :=
  {[ "link" := PyStr "https://example.net/untitled";
     "snippet" := PyStr "Untitled snippet" ]}.

Definition top_results_untitled (query : string) (num_results : Z) (w : unit)
  : list dict * unit :=
  ([hit_a; untitled_hit; hit_b], w).

(** A source summary without its [summary] field. *)
Definition unsummarized : dict :=
  {[ "title" := PyStr "Source 3"; "link" := PyStr "https://example.com/3" ]}.



End Scenario.

(** * Properties of the orchestrator *)

Section AgentProofs.
Import Py Agent.
Context {World : Type}.
Variable get_top_results : string -> Z -> World -> list dict * World.
Variable scrape : pyval -> World -> (bool * string) * World.
Variable summarize : string -> string -> bool -> World -> (bool * string) * World.
Variable create_comprehensive_summary :
  list dict -> string -> World -> (bool * string) * World.

#[local] Abbreviation process_result' :=
  (process_result scrape summarize).
#[local] Abbreviation process_results' :=
  (process_results scrape summarize).
#[local] Abbreviation run_hits' :=
  (run_hits scrape summarize).
#[local] Abbreviation research' :=
  (research get_top_results scrape summarize create_comprehensive_summary).

Lemma is_hit_keys (hit : dict) :
  is_hit hit = true ->
  exists title link snippet,
    hit !! "title" = Some title /\ hit !! "link" = Some link
    /\ hit !! "snippet" = Some snippet.
Proof.
  unfold is_hit, has_key. intros H.
  destruct (hit !! "title") as [t|]; [|discriminate].
  destruct (hit !! "link") as [l|]; [|discriminate].
  destruct (hit !! "snippet") as [s|]; [|discriminate].
  eauto 10.
Qed.

(** Extraction failed: the summarizer is not called. *)
Lemma process_result_scrape_failed query brief (hit : dict) sums st title link snippet err w :
  hit !! "title" = Some title -> hit !! "link" = Some link ->
  hit !! "snippet" = Some snippet ->
  scrape link (world st) = ((false, err), w) ->
  process_result' query brief hit sums st =
    (Ok (<["error" := PyStr err]> (base_item title link snippet), sums),
     State w (calls st ++ [CallScrape link])).
Proof.
  intros Ht Hl Hs Hscr.
  unfold process_result, bind, getitem, call_scrape, ret.
  rewrite Ht, Hl, Hs, Hscr. reflexivity.
Qed.

(** Extraction succeeded, summarization failed. *)
Lemma process_result_summarize_failed query brief (hit : dict) sums st
    title link snippet content w err w' :
  hit !! "title" = Some title -> hit !! "link" = Some link ->
  hit !! "snippet" = Some snippet ->
  scrape link (world st) = ((true, content), w) ->
  summarize content query brief w = ((false, err), w') ->
  process_result' query brief hit sums st =
    (Ok (<["error" := PyStr err]> (base_item title link snippet), sums),
     State w' ((calls st ++ [CallScrape link]) ++ [CallSummarize content query brief])).
Proof.
  intros Ht Hl Hs Hscr Hsum.
  unfold process_result, bind, getitem, call_scrape, call_summarize, ret.
  rewrite Ht, Hl, Hs, Hscr. simpl. rewrite Hsum. reflexivity.
Qed.

(** Both stages succeeded. *)
Lemma process_result_ok query brief (hit : dict) sums st
    title link snippet content w summary w' :
  hit !! "title" = Some title -> hit !! "link" = Some link ->
  hit !! "snippet" = Some snippet ->
  scrape link (world st) = ((true, content), w) ->
  summarize content query brief w = ((true, summary), w') ->
  process_result' query brief hit sums st =
    (Ok (<["content" := PyStr (preview content)]>
           (<["summary" := PyStr summary]>
              (<["success" := PyBool true]> (base_item title link snippet))),
         sums ++ [ {[ "title" := title; "link" := link; "summary" := PyStr summary ]} ]),
     State w' ((calls st ++ [CallScrape link]) ++ [CallSummarize content query brief])).
Proof.
  intros Ht Hl Hs Hscr Hsum.
  unfold process_result, bind, getitem, call_scrape, call_summarize, ret.
  rewrite Ht, Hl, Hs, Hscr. simpl. rewrite Hsum. reflexivity.
Qed.

(** What one turn of the loop leaves behind, for a hit with its three
    keys: the item it builds and the entries it appends. *)
Lemma process_result_spec query brief (hit : dict) sums st :
  is_hit hit = true ->
  exists item new st',
    process_result' query brief hit sums st = (Ok (item, sums ++ new), st')
    /\ same_source hit item
    /\ ((successful_item item /\ succeeded item = true /\ exists e, new = [e])
        \/ (failed_item item /\ succeeded item = false /\ new = [])).
Proof.
  intros Hhit.
  destruct (is_hit_keys hit Hhit) as (t & l & s & Ht & Hl & Hs).
  destruct (scrape l (world st)) as [[ok1 content] w1] eqn:Hscr.
  destruct ok1.
  - destruct (summarize content query brief w1) as [[ok2 summary] w2] eqn:Hsum.
    destruct ok2.
    + eexists _, [_], _. split.
      { eapply process_result_ok; eassumption. }
      split.
      { unfold same_source, base_item. rewrite Ht, Hl, Hs. repeat split; reflexivity. }
      left. unfold successful_item, succeeded, base_item.
      repeat split; try reflexivity; eauto.
    + eexists _, [], _. split.
      { rewrite app_nil_r. eapply process_result_summarize_failed; eassumption. }
      split.
      { unfold same_source, base_item. rewrite Ht, Hl, Hs. repeat split; reflexivity. }
      right. unfold failed_item, succeeded, base_item.
      repeat split; try reflexivity; eauto.
  - eexists _, [], _. split.
    { rewrite app_nil_r. eapply process_result_scrape_failed; eassumption. }
    split.
    { unfold same_source, base_item. rewrite Ht, Hl, Hs. repeat split; reflexivity. }
    right. unfold failed_item, succeeded, base_item.
    repeat split; try reflexivity; eauto.
Qed.

(** After [len(mid)] turns entered at index [len(done)], the in-place
    loop has rewritten exactly the positions of [mid]. *)
Lemma process_results_run_hits query brief (mid : list dict) :
  forall (done rest sums : list dict) st,
    process_results' (length mid) (length done) query brief
      (done ++ mid ++ rest) sums st =
    match run_hits' query brief mid sums st with
    | (Ok (items, sums'), st') => (Ok (done ++ items ++ rest, sums'), st')
    | (Raise e, st') => (Raise e, st')
    end.
Proof.
  induction mid as [|hit mid IH]; intros done rest sums st; simpl.
  - reflexivity.
  - rewrite list_lookup_middle by reflexivity.
    unfold bind, ret.
    destruct (process_result' query brief hit sums st) as [[[item sums']|e] st1];
      [|reflexivity].
    rewrite insert_app_r_alt by lia.
    replace (length done - length done)%nat with 0%nat by lia. simpl.
    replace (done ++ item :: mid ++ rest) with ((done ++ [item]) ++ mid ++ rest)
      by (rewrite <- app_assoc; reflexivity).
    replace (S (length done)) with (length (done ++ [item]))
      by (rewrite length_app; simpl; lia).
    rewrite IH.
    destruct (run_hits' query brief mid sums' st1) as [[[items sums'']|e] st2];
      [|reflexivity].
    rewrite <- app_assoc. reflexivity.
Qed.

Lemma run_hits_app query brief (hits1 hits2 : list dict) :
  forall sums st,
    run_hits' query brief (hits1 ++ hits2) sums st =
    match run_hits' query brief hits1 sums st with
    | (Ok (items1, sums1), st1) =>
        match run_hits' query brief hits2 sums1 st1 with
        | (Ok (items2, sums2), st2) => (Ok (items1 ++ items2, sums2), st2)
        | (Raise e, st2) => (Raise e, st2)
        end
    | (Raise e, st1) => (Raise e, st1)
    end.
Proof.
  induction hits1 as [|hit hits1 IH]; intros sums st; simpl.
  - unfold ret.
    destruct (run_hits' query brief hits2 sums st) as [[[items2 sums2]|e] st2];
      reflexivity.
  - unfold bind, ret.
    destruct (process_result' query brief hit sums st) as [[[item sums']|e] st1];
      [|reflexivity].
    rewrite IH.
    destruct (run_hits' query brief hits1 sums' st1) as [[[items1 sums1]|e] st2];
      [|reflexivity].
    destruct (run_hits' query brief hits2 sums1 st2) as [[[items2 sums2]|e] st3];
      reflexivity.
Qed.

(** The fold never raises on well-formed hits; it yields one item per
    hit, in order, and its new entries are those of the successful items. *)
Lemma run_hits_spec query brief (hits : list dict) :
  forallb is_hit hits = true ->
  forall sums st,
  exists items new st',
    run_hits' query brief hits sums st = (Ok (items, sums ++ new), st')
    /\ Forall2 same_source hits items
    /\ Forall (fun item => successful_item item \/ failed_item item) items
    /\ (existsb succeeded items = true <-> new <> []).
Proof.
  induction hits as [|hit hits IH]; intros Hhits sums st; simpl in *.
  - exists [], [], st. rewrite app_nil_r. unfold ret. simpl.
    repeat split; try constructor; try discriminate; congruence.
  - apply andb_prop in Hhits as [Hhit Hhits].
    destruct (process_result_spec query brief hit sums st Hhit)
      as (item & new1 & st1 & Hstep & Hsrc & Hcase).
    destruct (IH Hhits (sums ++ new1) st1)
      as (items & new2 & st2 & Hrun & Hsrcs & Hshapes & Hsucc).
    exists (item :: items), (new1 ++ new2), st2.
    unfold bind, ret. rewrite Hstep, Hrun, app_assoc.
    split; [reflexivity|].
    split; [constructor; assumption|].
    destruct Hcase as [(Hshape & Hs & e & ->) | (Hshape & Hs & ->)].
    + split; [constructor; [left|]; assumption|].
      simpl. rewrite Hs. simpl. split; [discriminate|reflexivity].
    + split; [constructor; [right|]; assumption|].
      simpl. rewrite Hs. simpl. exact Hsucc.
Qed.

Lemma process_results_all query brief (hits sums : list dict) st :
  process_results' (length hits) 0 query brief hits sums st =
  run_hits' query brief hits sums st.
Proof.
  pose proof (process_results_run_hits query brief hits [] [] sums st) as H.
  rewrite app_nil_l, app_nil_r in H. change (length (@nil dict)) with 0%nat in H.
  rewrite H.
  destruct (run_hits' query brief hits sums st) as [[[items sums']|e] st'];
    [|reflexivity].
  rewrite app_nil_r. reflexivity.
Qed.

Lemma research_some_hits query num_results brief st (hits : list dict) w :
  get_top_results query num_results (world st) = (hits, w) ->
  hits <> [] ->
  research' query num_results brief st =
  match process_results' (length hits) 0 query brief hits []
          (State w (calls st ++ [CallGetTopResults query num_results])) with
  | (Ok (items, sums), st1) =>
      match synthesize create_comprehensive_summary sums query st1 with
      | (Ok (ok, cs), st2) => (Ok (compiled query items sums ok cs), st2)
      | (Raise e, st2) => (Raise e, st2)
      end
  | (Raise e, st1) => (Raise e, st1)
  end.
Proof.
  intros Hget Hne.
  unfold research, bind at 1, call_get_top_results. rewrite Hget.
  destruct hits as [|hit hits]; [congruence|].
  unfold bind, ret.
  destruct (process_results' _ _ _ _ _ _ _) as [[[items sums]|e] st1]; [|reflexivity].
  destruct (synthesize _ _ _ _) as [[[ok cs]|e] st2]; reflexivity.
Qed.

Lemma research_zero_hits query num_results brief st w :
  get_top_results query num_results (world st) = ([], w) ->
  research' query num_results brief st =
    (Ok no_results, State w (calls st ++ [CallGetTopResults query num_results])).
Proof.
  intros Hget. unfold research, bind, call_get_top_results. rewrite Hget. reflexivity.
Qed.

Lemma positive_length_nonempty (sums : list dict) :
  (0 <? Z.of_nat (length sums)) = true <-> sums <> [].
Proof.
  destruct sums as [|e sums]; split; intros H; try congruence.
  - discriminate H.
  - apply Z.ltb_lt. simpl length. lia.
Qed.

(** C1: when the Result Fetcher returns no hit, [research] returns the
    no-results dictionary ([success] false, the fixed error string, an
    empty [results] list, [comprehensive_summary] None), and the only call
    it has made is the one to the Result Fetcher: neither the scraper nor
    the summarizer is called. *)
Theorem research_no_results query num_results brief st w :
  get_top_results query num_results (world st) = ([], w) ->
  exists result st',
    research' query num_results brief st = (Ok result, st')
    /\ result !! "success" = Some (PyBool false)
    /\ result !! "error" = Some (PyStr "No search results found")
    /\ result !! "results" = Some (PyList [])
    /\ result !! "comprehensive_summary" = Some PyNone
    /\ world st' = w
    /\ calls st' = calls st ++ [CallGetTopResults query num_results].
Proof.
  intros Hget. eexists _, _. split.
  - apply research_zero_hits. exact Hget.
  - repeat split; reflexivity.
Qed.

(** C2: with at least one hit, the [success] field of the result is true
    exactly when some item of [results] has [success] true; the statement
    holds for every behaviour of the synthesis call. *)
Theorem research_success_iff_some_item query num_results brief st (hits : list dict) w :
  get_top_results query num_results (world st) = (hits, w) ->
  hits <> [] ->
  forallb is_hit hits = true ->
  exists result st' items,
    research' query num_results brief st = (Ok result, st')
    /\ result !! "results" = Some (PyList (PyDict <$> items))
    /\ result !! "success" = Some (PyBool (existsb succeeded items)).
Proof.
  intros Hget Hne Hhits.
  rewrite (research_some_hits _ _ _ _ _ _ Hget Hne), process_results_all.
  destruct (run_hits_spec query brief hits Hhits []
              (State w (calls st ++ [CallGetTopResults query num_results])))
    as (items & sums & st1 & Hrun & _ & _ & Hsucc).
  rewrite Hrun. simpl ([] ++ sums).
  assert (Hb : (0 <? Z.of_nat (length sums)) = existsb succeeded items).
  { destruct (existsb succeeded items) eqn:He.
    - apply positive_length_nonempty, Hsucc. reflexivity.
    - destruct (0 <? Z.of_nat (length sums)) eqn:Hl; [|reflexivity].
      apply positive_length_nonempty, Hsucc in Hl. discriminate. }
  unfold synthesize.
  destruct sums as [|e sums].
  - unfold ret. eexists _, _, items. split; [reflexivity|].
    unfold compiled. rewrite Hb. split; reflexivity.
  - unfold bind, ret, call_create_comprehensive_summary.
    destruct (create_comprehensive_summary _ _ _) as [[ok cs] w'].
    eexists _, _, items. split; [reflexivity|].
    unfold compiled. rewrite Hb. split; reflexivity.
Qed.

(** C3: [comprehensive_summary] is a string exactly when the list of
    source summaries collected by the loop is non-empty (some item
    succeeded) and the one synthesis call made over it reports success;
    otherwise it is None.  A failed synthesis leaves no [error] key in the
    result and raises nothing.  The synthesis is called once on a
    non-empty list and not at all on an empty one. *)
Theorem research_comprehensive_summary query num_results brief st (hits : list dict) w :
  get_top_results query num_results (world st) = (hits, w) ->
  forallb is_hit hits = true ->
  exists items sums st1 result st' v,
    process_results' (length hits) 0 query brief hits []
      (State w (calls st ++ [CallGetTopResults query num_results]))
      = (Ok (items, sums), st1)
    /\ research' query num_results brief st = (Ok result, st')
    /\ (sums <> [] <-> existsb succeeded items = true)
    /\ result !! "comprehensive_summary" = Some v
    /\ (v <> PyNone <->
        sums <> []
        /\ fst (fst (create_comprehensive_summary sums query (world st1))) = true)
    /\ (v <> PyNone ->
        v = PyStr (snd (fst (create_comprehensive_summary sums query (world st1)))))
    /\ (sums <> [] ->
        result !! "error" = None
        /\ calls st' = calls st1 ++ [CallCreateComprehensiveSummary sums query])
    /\ (sums = [] -> st' = st1).
Proof.
  intros Hget Hhits.
  destruct hits as [|hit hits].
  - rewrite (research_zero_hits _ _ _ _ _ Hget).
    exists [], [], (State w (calls st ++ [CallGetTopResults query num_results])).
    eexists _, _, PyNone.
    split; [reflexivity|]. split; [reflexivity|].
    split; [split; [congruence|discriminate]|].
    split; [reflexivity|].
    split; [split; [congruence|intros [H _]; congruence]|].
    split; [congruence|]. split; [congruence|reflexivity].
  - rewrite (research_some_hits _ _ _ _ _ _ Hget) by discriminate.
    rewrite process_results_all.
    destruct (run_hits_spec query brief (hit :: hits) Hhits []
                (State w (calls st ++ [CallGetTopResults query num_results])))
      as (items & sums & st1 & Hrun & _ & _ & Hsucc).
    rewrite Hrun. simpl ([] ++ sums).
    exists items, sums, st1.
    unfold synthesize.
    destruct sums as [|e sums].
    + unfold ret. eexists _, _, PyNone.
      split; [reflexivity|]. split; [reflexivity|].
      split; [symmetry; exact Hsucc|].
      split; [reflexivity|].
      split; [split; [congruence|intros [H _]; congruence]|].
      split; [congruence|]. split; [congruence|reflexivity].
    + unfold bind, ret, call_create_comprehensive_summary.
      destruct (create_comprehensive_summary (e :: sums) query (world st1))
        as [[ok cs] w'] eqn:Hsyn.
      eexists _, _, (if ok then PyStr cs else PyNone).
      split; [reflexivity|]. split; [reflexivity|].
      split; [symmetry; exact Hsucc|].
      split; [destruct ok; reflexivity|].
      simpl.
      split; [destruct ok; split; try congruence; try (intros [_ H]; discriminate);
              intros _; split; [discriminate|reflexivity]|].
      split; [destruct ok; congruence|].
      split; [intros _; split; reflexivity|discriminate].
Qed.

(** C4: take any hit of a run; [st1] is the state reached when its turn
    begins, after the loop has run over the hits before it.  If the
    scraper fails there, the item recorded at the hit's position has
    [success] false and the scraper's error, the synthesis input is left
    as it was, and the only call of the turn is the one to the scraper (the
    summarizer is not called).  If the scraper succeeds and the summarizer
    fails, the item has [success] false and the summarizer's error, and the
    synthesis input is left as it was. *)
Theorem research_failed_item query num_results brief st (hits1 : list dict) (hit : dict)
    (hits2 : list dict) w :
  get_top_results query num_results (world st) = (hits1 ++ hit :: hits2, w) ->
  forallb is_hit (hits1 ++ hit :: hits2) = true ->
  exists items1 sums1 st1 item sums2 st2 link result st' items,
    process_results' (length hits1) 0 query brief (hits1 ++ hit :: hits2) []
      (State w (calls st ++ [CallGetTopResults query num_results]))
      = (Ok (items1 ++ hit :: hits2, sums1), st1)
    /\ process_result' query brief hit sums1 st1 = (Ok (item, sums2), st2)
    /\ hit !! "link" = Some link
    /\ research' query num_results brief st = (Ok result, st')
    /\ result !! "results" = Some (PyList (PyDict <$> items))
    /\ items !! length hits1 = Some item
    /\ (forall err w1,
          scrape link (world st1) = ((false, err), w1) ->
          item !! "success" = Some (PyBool false)
          /\ item !! "error" = Some (PyStr err)
          /\ sums2 = sums1
          /\ st2 = State w1 (calls st1 ++ [CallScrape link]))
    /\ (forall content w1 err w2,
          scrape link (world st1) = ((true, content), w1) ->
          summarize content query brief w1 = ((false, err), w2) ->
          item !! "success" = Some (PyBool false)
          /\ item !! "error" = Some (PyStr err)
          /\ sums2 = sums1).
Proof.
  intros Hget Hhits.
  set (st0 := State w (calls st ++ [CallGetTopResults query num_results])).
  pose proof Hhits as Hall.
  rewrite forallb_app in Hhits. apply andb_prop in Hhits as [Hh1 Hh2].
  simpl in Hh2. apply andb_prop in Hh2 as [Hhit Hh2].
  destruct (run_hits_spec query brief hits1 Hh1 [] st0)
    as (items1 & sums1 & st1 & Hrun1 & Hsrc1 & _ & _).
  simpl ([] ++ sums1) in Hrun1.
  destruct (process_result_spec query brief hit sums1 st1 Hhit)
    as (item & new & st2 & Hstep & _ & _).
  destruct (run_hits_spec query brief hits2 Hh2 (sums1 ++ new) st2)
    as (items2 & new2 & st3 & Hrun2 & _ & _ & _).
  destruct (is_hit_keys hit Hhit) as (t & l & s & Ht & Hl & Hs).
  assert (Hrun : run_hits' query brief (hits1 ++ hit :: hits2) [] st0
                 = (Ok (items1 ++ item :: items2, (sums1 ++ new) ++ new2), st3)).
  { rewrite run_hits_app, Hrun1. cbn [run_hits]. unfold bind, ret. rewrite Hstep, Hrun2.
    reflexivity. }
  exists items1, sums1, st1, item, (sums1 ++ new), st2, l.
  rewrite (research_some_hits _ _ _ _ _ _ Hget) by (destruct hits1; discriminate).
  rewrite process_results_all. fold st0. rewrite Hrun.
  destruct (synthesize create_comprehensive_summary ((sums1 ++ new) ++ new2) query st3)
    as [[[ok cs]|e] st4] eqn:Hsyn.
  2:{ unfold synthesize in Hsyn. destruct ((sums1 ++ new) ++ new2).
      - discriminate Hsyn.
      - unfold bind, ret, call_create_comprehensive_summary in Hsyn.
        destruct (create_comprehensive_summary _ _ _) as [[? ?] ?]. discriminate Hsyn. }
  eexists _, _, (items1 ++ item :: items2).
  split.
  { pose proof (process_results_run_hits query brief hits1 [] (hit :: hits2) [] st0) as H.
    rewrite app_nil_l in H. change (length (@nil dict)) with 0%nat in H.
    rewrite H, Hrun1. reflexivity. }
  split; [exact Hstep|]. split; [exact Hl|]. split; [reflexivity|].
  split; [reflexivity|].
  split.
  { rewrite (Forall2_length _ _ _ Hsrc1). apply list_lookup_middle. reflexivity. }
  split.
  - intros err w1 Hscr.
    rewrite (process_result_scrape_failed _ _ _ _ _ _ _ _ _ _ Ht Hl Hs Hscr) in Hstep.
    injection Hstep as <- Hnew <-.
    repeat split; try reflexivity. symmetry. exact Hnew.
  - intros content w1 err w2 Hscr Hsum.
    rewrite (process_result_summarize_failed _ _ _ _ _ _ _ _ _ _ _ _ Ht Hl Hs Hscr Hsum)
      in Hstep.
    injection Hstep as <- Hnew <-.
    repeat split; try reflexivity. symmetry. exact Hnew.
Qed.

(** One turn of the loop, read off the answers of the two collaborators
    at the state in which the turn begins. *)
Lemma process_result_outcome query brief (hit : dict) sums st :
  is_hit hit = true ->
  exists item sums' st' link,
    process_result' query brief hit sums st = (Ok (item, sums'), st')
    /\ hit !! "link" = Some link
    /\ item_outcome item
         (fst (scrape link (world st)))
         (fst (summarize (snd (fst (scrape link (world st)))) query brief
                 (snd (scrape link (world st))))).
Proof.
  intros Hhit.
  destruct (is_hit_keys hit Hhit) as (t & l & s & Ht & Hl & Hs).
  destruct (scrape l (world st)) as [[ok1 content] w1] eqn:Hscr.
  destruct ok1.
  - destruct (summarize content query brief w1) as [[ok2 summary] w2] eqn:Hsum.
    destruct ok2.
    + eexists _, _, _, l. split.
      { eapply process_result_ok; eassumption. }
      split; [exact Hl|]. rewrite Hscr. cbn [fst snd]. rewrite Hsum.
      unfold item_outcome, base_item, preview. cbn [fst snd andb].
      repeat split; reflexivity.
    + eexists _, _, _, l. split.
      { eapply process_result_summarize_failed; eassumption. }
      split; [exact Hl|]. rewrite Hscr. cbn [fst snd]. rewrite Hsum.
      unfold item_outcome, base_item. cbn [fst snd andb].
      repeat split; reflexivity.
  - eexists _, _, _, l. split.
    { eapply process_result_scrape_failed; eassumption. }
    split; [exact Hl|]. rewrite Hscr.
    unfold item_outcome, base_item. cbn [fst snd andb].
    repeat split; reflexivity.
Qed.

(** C10: with at least one hit, [results] holds one item per hit, at the
    hit's own position and with the hit's title, link and snippet; an item
    is either successful (success true, a summary, a content preview, no
    error) or failed (success false, an error, neither summary nor
    content).  The fields are those of the hit's own turn: at the state the
    loop has reached after [i] turns, the scraper is asked for the hit's
    link and, if it succeeds, the summarizer for the scraped content; a
    successful item holds the summarizer's summary and, as content, the
    scraped content when it has at most 1,000 characters and its first
    1,000 characters followed by "..." otherwise; a failed item holds the
    error of the collaborator that failed. *)
Theorem research_results_shape query num_results brief st (hits : list dict) w :
  get_top_results query num_results (world st) = (hits, w) ->
  hits <> [] ->
  forallb is_hit hits = true ->
  exists result st' items,
    research' query num_results brief st = (Ok result, st')
    /\ result !! "results" = Some (PyList (PyDict <$> items))
    /\ length items = length hits
    /\ forall (i : nat) (hit item : dict),
         hits !! i = Some hit -> items !! i = Some item ->
         same_source hit item
         /\ (successful_item item \/ failed_item item)
         /\ exists sums_i st_i link,
              process_results' i 0 query brief hits []
                (State w (calls st ++ [CallGetTopResults query num_results]))
                = (Ok (take i items ++ drop i hits, sums_i), st_i)
              /\ hit !! "link" = Some link
              /\ item_outcome item
                   (fst (scrape link (world st_i)))
                   (fst (summarize (snd (fst (scrape link (world st_i)))) query brief
                           (snd (scrape link (world st_i))))).
Proof.
  intros Hget Hne Hhits.
  rewrite (research_some_hits _ _ _ _ _ _ Hget Hne), process_results_all.
  set (st0 := State w (calls st ++ [CallGetTopResults query num_results])).
  destruct (run_hits_spec query brief hits Hhits [] st0)
    as (items & sums & st1 & Hrun & Hsrc & Hshape & _).
  rewrite Hrun.
  destruct (synthesize create_comprehensive_summary ([] ++ sums) query st1)
    as [[[ok cs]|e] st2] eqn:Hsyn.
  2:{ unfold synthesize in Hsyn. destruct ([] ++ sums).
      - discriminate Hsyn.
      - unfold bind, ret, call_create_comprehensive_summary in Hsyn.
        destruct (create_comprehensive_summary _ _ _) as [[? ?] ?]. discriminate Hsyn. }
  eexists _, _, items. split; [reflexivity|]. split; [reflexivity|].
  split; [symmetry; eapply Forall2_length; exact Hsrc|].
  intros i hit item Hi Hj.
  split; [eapply Forall2_lookup_lr; eassumption|].
  split; [eapply (Forall_lookup_1 _ _ _ _ Hshape); exact Hj|].
  pose proof (take_drop_middle hits i hit Hi) as Hsplit.
  pose proof (lookup_lt_Some _ _ _ Hi) as Hlt.
  assert (Hall : forallb is_hit (take i hits ++ hit :: drop (S i) hits) = true)
    by (rewrite Hsplit; exact Hhits).
  rewrite forallb_app in Hall. apply andb_prop in Hall as [Hh1 Hh2].
  cbn [forallb] in Hh2. apply andb_prop in Hh2 as [Hhit _].
  destruct (run_hits_spec query brief (take i hits) Hh1 [] st0)
    as (items1 & sums1 & st_i & Hrun1 & Hsrc1 & _).
  destruct (process_result_outcome query brief hit ([] ++ sums1) st_i Hhit)
    as (item' & sums' & st_i' & link & Hstep & Hl & Hout).
  assert (Hlen1 : length items1 = i).
  { rewrite <- (Forall2_length _ _ _ Hsrc1). apply length_take_le. lia. }
  assert (Hitems : exists items2, items = items1 ++ item' :: items2).
  { rewrite <- Hsplit, run_hits_app, Hrun1 in Hrun. cbn [run_hits] in Hrun.
    unfold bind, ret in Hrun. rewrite Hstep in Hrun.
    destruct (run_hits' query brief (drop (S i) hits) sums' st_i')
      as [[[items2 sums2]|e] st3]; [|discriminate Hrun].
    exists items2. congruence. }
  destruct Hitems as [items2 ->].
  assert (item = item') as ->.
  { rewrite <- Hlen1, list_lookup_middle in Hj by reflexivity. congruence. }
  exists ([] ++ sums1), st_i, link.
  split; [|split; [exact Hl|exact Hout]].
  pose proof (process_results_run_hits query brief (take i hits) []
                (hit :: drop (S i) hits) [] st0) as H.
  rewrite app_nil_l, Hsplit, Hrun1 in H.
  rewrite length_take_le in H by lia. change (length (@nil dict)) with 0%nat in H.
  rewrite H.
  replace (take i (items1 ++ item' :: items2)) with items1
    by (rewrite <- Hlen1; symmetry; apply take_app_length).
  rewrite (drop_S _ _ _ Hi). reflexivity.
Qed.

End AgentProofs.

(** * Properties of the search client *)

Section SearchToolProofs.
Import Py SearchTool.
Variable self_api_key : string.
Variable requests_get : nat -> string -> params -> res response.
Variable raise_for_status : response -> option string.

#[local] Abbreviation try_search' := (try_search requests_get raise_for_status).
#[local] Abbreviation search_attempt' := (search_attempt requests_get raise_for_status).
#[local] Abbreviation search_loop' := (search_loop requests_get raise_for_status).

(** Every attempt sends one request and does not sleep by itself. *)
Lemma try_search_state p st r st' :
  try_search' p st = (r, st') -> st' = State (S (gets st)) (sleeps st).
Proof.
  unfold try_search. intros H.
  destruct (requests_get (gets st) base_url p) as [response|e]; [|congruence].
  destruct (status_code response =? 401); [congruence|].
  destruct (raise_for_status response); [congruence|].
  destruct (json response) as [results|e]; [|congruence].
  destruct (results !! "organic_results"); congruence.
Qed.

(** An [HTTPError] comes from [raise_for_status] and from nowhere else,
    unless [requests.get] or [json] raise one themselves. *)
Lemma try_search_status_error p st response msg :
  requests_get (gets st) base_url p = Ok response ->
  status_code response <> 401 ->
  raise_for_status response = Some msg ->
  try_search' p st =
    (Raise (HTTPError (status_code response) msg), State (S (gets st)) (sleeps st)).
Proof.
  intros Hget Hne Hrfs. unfold try_search. rewrite Hget.
  destruct (Z.eqb_spec (status_code response) 401) as [|_]; [contradiction|].
  rewrite Hrfs. reflexivity.
Qed.

Lemma try_search_401 p st response :
  requests_get (gets st) base_url p = Ok response ->
  status_code response = 401 ->
  try_search' p st = (Ok [], State (S (gets st)) (sleeps st)).
Proof.
  intros Hget H401. unfold try_search. rewrite Hget, H401. reflexivity.
Qed.

(** C5, as the code has it: an attempt whose [try] block raises [e]
    ends the search with an empty list, with no sleep and no further
    request, when [e] is an [HTTPError] for a status other than 429, and on
    the last attempt whatever [e] is.  When [e] is not an [HTTPError]
    (connection error, timeout, undecodable body) and attempts remain, the
    search sleeps [2 ** attempt] seconds and goes on to the next attempt. *)
Theorem search_error_policy p max_retries attempt (attempts : list Z) st e st' :
  try_search' p st = (Raise e, st') ->
  st' = State (S (gets st)) (sleeps st)
  /\ (forall status msg,
        e = HTTPError status msg -> status <> 429 ->
        search_loop' p max_retries (attempt :: attempts) st = ([], st'))
  /\ ((forall status msg, e <> HTTPError status msg) ->
      attempt < max_retries - 1 ->
      search_loop' p max_retries (attempt :: attempts) st =
        search_loop' p max_retries attempts (sleep (2 ^ attempt) st'))
  /\ (max_retries - 1 <= attempt ->
      search_loop' p max_retries (attempt :: attempts) st = ([], st')).
Proof.
  intros Htry. split; [eapply try_search_state; exact Htry|].
  simpl. unfold search_attempt. rewrite Htry.
  split; [|split].
  - intros status msg -> Hne.
    destruct (Z.eqb_spec status 429) as [|_]; [contradiction|]. reflexivity.
  - intros Hother Hlt.
    apply Z.ltb_lt in Hlt.
    destruct e; rewrite ?Hlt; try reflexivity.
    exfalso. eapply Hother. reflexivity.
  - intros Hge.
    assert (Hlt : (attempt <? max_retries - 1) = false) by (apply Z.ltb_ge; lia).
    destruct e; rewrite ?Hlt, ?andb_false_r; reflexivity.
Qed.

End SearchToolProofs.

(** Witness of [search_error_policy]: the first request of [flaky_get]
    fails to connect. *)
Lemma search_error_policy_witness :
  SearchTool.State 1 [] = SearchTool.State (S (SearchTool.gets (SearchTool.State 0 []))) []
  /\ (forall status msg,
        Py.RequestException "Connection refused" = Py.HTTPError status msg ->
        status <> 429 ->
        SearchTool.search_loop Scenario.flaky_get Scenario.serp_status
          Scenario.test_params 3 (0 :: [1; 2]) (SearchTool.State 0 [])
        = ([], SearchTool.State 1 []))
  /\ ((forall status msg,
         Py.RequestException "Connection refused" <> Py.HTTPError status msg) ->
      0 < 3 - 1 ->
      SearchTool.search_loop Scenario.flaky_get Scenario.serp_status
        Scenario.test_params 3 (0 :: [1; 2]) (SearchTool.State 0 []) =
      SearchTool.search_loop Scenario.flaky_get Scenario.serp_status
        Scenario.test_params 3 [1; 2]
        (SearchTool.sleep (2 ^ 0) (SearchTool.State 1 [])))
  /\ (3 - 1 <= 0 ->
      SearchTool.search_loop Scenario.flaky_get Scenario.serp_status
        Scenario.test_params 3 (0 :: [1; 2]) (SearchTool.State 0 [])
      = ([], SearchTool.State 1 [])).
Proof.
  apply (search_error_policy Scenario.flaky_get Scenario.serp_status
           Scenario.test_params 3 0 [1; 2] (SearchTool.State 0 [])
           (Py.RequestException "Connection refused") (SearchTool.State 1 [])).
  reflexivity.
Defined.

(** C5 as the spec states it fails: the first request raises a connection
    error, neither a 401 nor a 429, and the search does not stop with an
    empty list after that one request; it sleeps one second, sends a second
    request and returns its result. *)
Lemma search_retries_connection_error :
  SearchTool.try_search Scenario.flaky_get Scenario.serp_status Scenario.test_params
    (SearchTool.State 0 [])
    = (Py.Raise (Py.RequestException "Connection refused"), SearchTool.State 1 [])
  /\ SearchTool.search "mock_api_key" Scenario.flaky_get Scenario.serp_status
       "test query" 5 3 (SearchTool.State 0 [])
     = ([Scenario.raw_result], SearchTool.State 2 [1])
  /\ SearchTool.search "mock_api_key" Scenario.flaky_get Scenario.serp_status
       "test query" 5 3 (SearchTool.State 0 [])
     <> ([], SearchTool.State 1 []).
Proof.
  split; [reflexivity|]. split; [reflexivity|]. intros H. discriminate H.
Qed.

(** A server error is not retried; a rate limit is. *)
Example search_server_error :
  SearchTool.search "mock_api_key" Scenario.failing_get Scenario.serp_status
    "test query" 5 3 (SearchTool.State 0 [])
  = ([], SearchTool.State 1 []).
Proof. reflexivity. Qed.

Example search_rate_limit :
  SearchTool.search "mock_api_key" Scenario.limited_get Scenario.serp_status
    "test query" 5 3 (SearchTool.State 0 [])
  = ([Scenario.raw_result], SearchTool.State 2 [1]).
Proof. reflexivity. Qed.

(** * Properties of the page fetcher *)

Lemma len_append (s1 s2 : string) : Py.len (s1 +:+ s2) = Py.len s1 + Py.len s2.
Proof.
  unfold Py.len. induction s1 as [|c s1 IH].
  - reflexivity.
  - change (String c s1 +:+ s2) with (String c (s1 +:+ s2)).
    cbn [String.length]. lia.
Qed.

Lemma length_str_take (n : nat) (s : string) :
  String.length (Py.str_take n s) = Nat.min n (String.length s).
Proof.
  revert s. induction n as [|n IH]; intros [|c s]; cbn [Py.str_take String.length];
    try reflexivity.
  rewrite IH. reflexivity.
Qed.

Lemma len_slice_to (s : string) (n : Z) :
  0 <= n -> n <= Py.len s -> Py.len (Py.slice_to s n) = n.
Proof.
  unfold Py.len, Py.slice_to. intros H0 Hn. rewrite length_str_take. lia.
Qed.

Lemma str_drop_append (s1 s2 : string) :
  Py.str_drop (String.length s1) (s1 +:+ s2) = s2.
Proof.
  induction s1 as [|c s1 IH].
  - destruct s2; reflexivity.
  - change (String c s1 +:+ s2) with (String c (s1 +:+ s2)).
    cbn [String.length Py.str_drop]. exact IH.
Qed.

Lemma len_nonneg (s : string) : 0 <= Py.len s.
Proof. unfold Py.len. lia. Qed.

Lemma eqb_empty_len (s : string) : String.eqb s "" = true -> Py.len s = 0.
Proof. destruct s; [reflexivity|discriminate]. Qed.

Section ScraperProofs.
Import Py Scraper.
Variable urlparse : string -> res (string * string).
Variable requests_get : nat -> string -> res response.
Variable raise_for_status : response -> option string.
Variable _extract_main_content : string -> res string.

#[local] Abbreviation try_scrape' :=
  (try_scrape requests_get raise_for_status _extract_main_content).
#[local] Abbreviation scrape_attempt' :=
  (scrape_attempt requests_get raise_for_status _extract_main_content).
#[local] Abbreviation scrape_loop' :=
  (scrape_loop requests_get raise_for_status _extract_main_content).
#[local] Abbreviation timeouts' := (timeouts requests_get).
#[local] Abbreviation scrape' :=
  (scrape urlparse requests_get raise_for_status _extract_main_content).

Lemma try_scrape_state url st r st' :
  try_scrape' url st = (r, st') -> st' = State (S (gets st)) (sleeps st).
Proof.
  unfold try_scrape. intros H.
  destruct (requests_get (gets st) url) as [response|e]; [|congruence].
  destruct (raise_for_status response); [congruence|].
  destruct (negb _); [congruence|].
  destruct (_extract_main_content (text response)) as [content|e]; [|congruence].
  destruct (_ || _); congruence.
Qed.


Lemma scrape_attempt_success url max_retries attempt st content st' :
  scrape_attempt' url max_retries attempt st = (Return (true, content), st') ->
  try_scrape' url st = (Ok (true, content), st').
Proof.
  unfold scrape_attempt.
  destruct (try_scrape' url st) as [[r|e] st1]; [congruence|].
  destruct e; try congruence.
  destruct (attempt <? max_retries - 1); congruence.
Qed.

Lemma scrape_loop_success url max_retries (attempts : list Z) :
  forall st content st',
    scrape_loop' url max_retries attempts st = ((true, content), st') ->
    exists st1, try_scrape' url st1 = (Ok (true, content), st').
Proof.
  induction attempts as [|attempt attempts IH]; intros st content st' H; simpl in H.
  - congruence.
  - destruct (scrape_attempt' url max_retries attempt st) as [[r|] st1] eqn:Hatt.
    + injection H as -> ->. exists st. eapply scrape_attempt_success. exact Hatt.
    + eapply IH. exact H.
Qed.


(** Attempts that time out while attempts remain cost one request and
    one second of sleep each, and lead to the next attempt. *)
Lemma scrape_loop_timeouts url max_retries (k : nat) :
  forall (i : Z) st,
    0 <= i -> i + Z.of_nat k < max_retries ->
    timeouts' url (gets st) k ->
    scrape_loop' url max_retries (seqZ i (max_retries - i)) st =
    scrape_loop' url max_retries
      (seqZ (i + Z.of_nat k) (max_retries - i - Z.of_nat k))
      (State (gets st + k) (sleeps st ++ replicate k 1)).
Proof.
  induction k as [|k IH]; intros i st Hi Hk Htime.
  - simpl replicate. rewrite app_nil_r, Nat.add_0_r, Z.add_0_r, Z.sub_0_r.
    destruct st. reflexivity.
  - rewrite (seqZ_cons i) by lia. simpl scrape_loop.
    destruct (Htime 0%nat ltac:(lia)) as [msg Hget]. rewrite Nat.add_0_r in Hget.
    unfold scrape_attempt, try_scrape. rewrite Hget.
    destruct (Z.ltb_spec i (max_retries - 1)) as [_|Hge]; [|lia].
    replace (Z.pred (max_retries - i)) with (max_retries - Z.succ i) by lia.
    rewrite (IH (Z.succ i) (sleep 1 (State (S (gets st)) (sleeps st)))); try lia.
    + unfold sleep. cbn [gets sleeps].
      replace (Z.succ i + Z.of_nat k) with (i + Z.of_nat (S k)) by lia.
      replace (max_retries - Z.succ i - Z.of_nat k)
        with (max_retries - i - Z.of_nat (S k)) by lia.
      replace (S (gets st) + k)%nat with (gets st + S k)%nat by lia.
      rewrite <- app_assoc. reflexivity.
    + intros j Hj. cbn [sleep gets sleeps].
      destruct (Htime (S j) ltac:(lia)) as [msg' Hget'].
      exists msg'. rewrite <- Hget'. f_equal. lia.
Qed.

(** A valid URL that is not skipped reaches attempt [k] when the [k]
    attempts before it timed out: [scrape] continues as one more turn of
    the loop, after [k] requests and [k] sleeps of one second. *)
Lemma scrape_reaches url max_retries (k : nat) st :
  _is_valid_url urlparse url = true ->
  _should_skip_url url = false ->
  Z.of_nat k < max_retries ->
  timeouts' url (gets st) k ->
  scrape' url max_retries st =
    match scrape_attempt' url max_retries (Z.of_nat k)
            (State (gets st + k) (sleeps st ++ replicate k 1)) with
    | (Return r, st') => (r, st')
    | (Continue, st') =>
        scrape_loop' url max_retries
          (seqZ (Z.succ (Z.of_nat k)) (Z.pred (max_retries - Z.of_nat k))) st'
    end.
Proof.
  intros Hvalid Hskip Hk Htime. unfold scrape. rewrite Hvalid, Hskip. cbn [negb].
  pose proof (scrape_loop_timeouts url max_retries k 0 st ltac:(lia) ltac:(lia) Htime)
    as H.
  rewrite Z.sub_0_r, Z.add_0_l in H. rewrite H.
  rewrite (seqZ_cons (Z.of_nat k)) by lia. reflexivity.
Qed.

(** C6: on the attempt that fetches an HTML page and parses it, a
    cleaned text under 100 characters (the empty text included) makes
    [scrape] fail with "Content too short or empty."; a cleaned text over
    15,000 characters makes it succeed with the first 15,000 characters
    followed by "..."; anything between is returned as it is. *)
Theorem scrape_content_length url max_retries (k : nat) st r cleaned :
  _is_valid_url urlparse url = true ->
  _should_skip_url url = false ->
  Z.of_nat k < max_retries ->
  timeouts' url (gets st) k ->
  requests_get (gets st + k) url = Ok r ->
  raise_for_status r = None ->
  contains "text/html" (lower (default "" (content_type r))) = true ->
  _extract_main_content (text r) = Ok cleaned ->
  (len cleaned < 100 ->
   scrape' url max_retries st =
     ((false, "Content too short or empty."),
      State (S (gets st + k)) (sleeps st ++ replicate k 1)))
  /\ (15000 < len cleaned ->
      scrape' url max_retries st =
        ((true, slice_to cleaned 15000 +:+ "..."),
         State (S (gets st + k)) (sleeps st ++ replicate k 1)))
  /\ (100 <= len cleaned <= 15000 ->
      scrape' url max_retries st =
        ((true, cleaned), State (S (gets st + k)) (sleeps st ++ replicate k 1))).
Proof.
  intros Hvalid Hskip Hk Htime Hget Hrfs Hhtml Hext.
  rewrite (scrape_reaches url max_retries k st Hvalid Hskip Hk Htime).
  unfold scrape_attempt, try_scrape. cbn [gets sleeps].
  rewrite Hget, Hrfs, Hhtml, Hext. cbn [negb].
  split; [|split].
  - intros Hshort.
    destruct (Z.ltb_spec (len cleaned) 100) as [_|Hge]; [|lia].
    rewrite orb_true_r. reflexivity.
  - intros Hlong.
    destruct (String.eqb cleaned "") eqn:Hempty.
    { apply eqb_empty_len in Hempty. lia. }
    destruct (Z.ltb_spec (len cleaned) 100) as [Hlt|_]; [lia|].
    destruct (Z.ltb_spec 15000 (len cleaned)) as [_|Hle]; [|lia].
    reflexivity.
  - intros [Hmin Hmax].
    destruct (String.eqb cleaned "") eqn:Hempty.
    { apply eqb_empty_len in Hempty. lia. }
    destruct (Z.ltb_spec (len cleaned) 100) as [Hlt|_]; [lia|].
    destruct (Z.ltb_spec 15000 (len cleaned)) as [Hgt|_]; [lia|].
    reflexivity.
Qed.


End ScraperProofs.

Lemma slow_page_timeouts (get : nat -> string -> Py.res Scraper.response) url :
  get 0%nat url = Py.Raise (Py.Timeout "Read timed out.") ->
  Scraper.timeouts get url 0 1.
Proof.
  intros H j Hj. exists "Read timed out.".
  destruct j as [|j]; [exact H|lia].
Qed.

(** Witness of [scrape_content_length]: a timeout, then a page whose
    cleaned text has 16,000 characters. *)
Lemma scrape_content_length_witness :
  Scraper.scrape Scenario.urlparse Scenario.slow_page Scenario.page_status
    Scenario.extract_long "https://example.com" Scraper.default_max_retries (Scraper.State 0 [])
  = ((true, Py.slice_to Scenario.long_text 15000 +:+ "..."), Scraper.State 2 [1]).
Proof.
  refine (proj1 (proj2 (scrape_content_length Scenario.urlparse Scenario.slow_page
            Scenario.page_status Scenario.extract_long "https://example.com"
            Scraper.default_max_retries 1
            (Scraper.State 0 []) Scenario.html_page Scenario.long_text
            _ _ _ _ _ _ _ _)) _).
  - reflexivity.
  - reflexivity.
  - reflexivity.
  - apply slow_page_timeouts. reflexivity.
  - reflexivity.
  - reflexivity.
  - reflexivity.
  - reflexivity.
  - vm_compute. reflexivity.
Defined.





(** The bound of 15,003 is reached; a short page is a failure; every
    attempt timing out ends with the timeout message. *)
Example scrape_long_page :
  Py.len (snd (fst (Scraper.scrape Scenario.urlparse Scenario.quick_page
                      Scenario.page_status Scenario.extract_long
                      "https://example.com" Scraper.default_max_retries (Scraper.State 0 []))))
  = 15003.
Proof. vm_compute. reflexivity. Qed.

Example scrape_short_page :
  Scraper.scrape Scenario.urlparse Scenario.quick_page Scenario.page_status
    Scenario.extract_short "https://example.com" Scraper.default_max_retries (Scraper.State 0 [])
  = ((false, "Content too short or empty."), Scraper.State 1 []).
Proof. reflexivity. Qed.

Example scrape_always_timeout :
  Scraper.scrape Scenario.urlparse (fun _ _ => Py.Raise (Py.Timeout "Read timed out."))
    Scenario.page_status Scenario.extract_sample "https://example.com"
    Scraper.default_max_retries (Scraper.State 0 [])
  = ((false, "Request timed out."), Scraper.State 2 [1]).
Proof. reflexivity. Qed.

Example scrape_skipped_url :
  Scraper.scrape Scenario.urlparse Scenario.quick_page Scenario.page_status
    Scenario.extract_sample "https://example.com/doc.pdf"
    Scraper.default_max_retries (Scraper.State 0 [])
  = ((false, "Skipping URL that may contain non-HTML content: https://example.com/doc.pdf"),
     Scraper.State 0 []).
Proof. reflexivity. Qed.

(** * Properties of the Gemini client *)

Section SummarizerProofs.
Import Py Summarizer.
Variable generate_content : nat -> string -> res response.
Variable str : pyval -> string.

#[local] Abbreviation summarize' := (summarize generate_content).
#[local] Abbreviation create_comprehensive_summary' :=
  (create_comprehensive_summary generate_content str).

Lemma failed_to_summarize_distinct (detail : string) :
  "Failed to summarize: " +:+ detail <> "Error: Unexpected response format from API"
  /\ "Failed to summarize: " +:+ detail <> "Generated summary was too short or empty"
  /\ "Error: Unexpected response format from API"
     <> "Generated summary was too short or empty".
Proof.
  repeat split; intros H; cbv [String.append] in H; discriminate H.
Qed.

(** C8: [summarize] fails, each time with its own message, when the
    provider raises, when the response has no text, and when the text has
    fewer than 50 characters; it succeeds on any longer text.
    [create_comprehensive_summary], once its prompt is built, fails in the
    first two cases alike and succeeds on any text, however short. *)
Theorem summarizer_failure_taxonomy content query is_brief (summaries : list dict)
    combined st :
  combine str 1 summaries "" = Ok combined ->
  (forall e,
     generate_content (length (prompts st)) (summary_prompt content query is_brief)
       = Raise e ->
     summarize' content query is_brief st =
       ((false, "Failed to summarize: " +:+ str_exn e),
        State (prompts st ++ [summary_prompt content query is_brief])))
  /\ (generate_content (length (prompts st)) (summary_prompt content query is_brief)
        = Ok NoText ->
      summarize' content query is_brief st =
        ((false, "Error: Unexpected response format from API"),
         State (prompts st ++ [summary_prompt content query is_brief])))
  /\ (forall text,
       generate_content (length (prompts st)) (summary_prompt content query is_brief)
         = Ok (WithText text) ->
       (len text < 50 ->
        summarize' content query is_brief st =
          ((false, "Generated summary was too short or empty"),
           State (prompts st ++ [summary_prompt content query is_brief])))
       /\ (50 <= len text ->
           summarize' content query is_brief st =
             ((true, text),
              State (prompts st ++ [summary_prompt content query is_brief]))))
  /\ (forall e,
       "Failed to summarize: " +:+ str_exn e
         <> "Error: Unexpected response format from API"
       /\ "Failed to summarize: " +:+ str_exn e
          <> "Generated summary was too short or empty"
       /\ "Error: Unexpected response format from API"
          <> "Generated summary was too short or empty")
  /\ (forall e,
       generate_content (length (prompts st))
         (_create_comprehensive_prompt combined query) = Raise e ->
       create_comprehensive_summary' summaries query st =
         ((false, "Failed to create comprehensive summary: " +:+ str_exn e),
          State (prompts st ++ [_create_comprehensive_prompt combined query])))
  /\ (generate_content (length (prompts st))
        (_create_comprehensive_prompt combined query) = Ok NoText ->
      create_comprehensive_summary' summaries query st =
        ((false, "Error: Unexpected response format from API"),
         State (prompts st ++ [_create_comprehensive_prompt combined query])))
  /\ (forall text,
       generate_content (length (prompts st))
         (_create_comprehensive_prompt combined query) = Ok (WithText text) ->
       create_comprehensive_summary' summaries query st =
         ((true, text),
          State (prompts st ++ [_create_comprehensive_prompt combined query]))).
Proof.
  intros Hcombine.
  unfold summarize, create_comprehensive_summary, call_generate_content.
  fold (summary_prompt content query is_brief). rewrite Hcombine.
  split; [intros e ->; reflexivity|].
  split; [intros ->; reflexivity|].
  split.
  { intros text ->. split.
    - intros Hshort.
      destruct (Z.ltb_spec (len text) 50) as [_|Hge]; [|lia].
      rewrite orb_true_r. reflexivity.
    - intros Hlong.
      destruct (String.eqb text "") eqn:Hempty.
      { apply eqb_empty_len in Hempty. lia. }
      destruct (Z.ltb_spec (len text) 50) as [Hlt|_]; [lia|]. reflexivity. }
  split; [intros e; apply failed_to_summarize_distinct|].
  split; [intros e ->; reflexivity|].
  split; [intros ->; reflexivity|].
  intros text ->. reflexivity.
Qed.

End SummarizerProofs.

(** Witness of [summarizer_failure_taxonomy]: two source summaries and a
    provider that answers "Short."; the synthesis accepts it. *)
Lemma summarizer_failure_taxonomy_witness :
  exists combined,
    Summarizer.combine Scenario.str_mock 1 Scenario.two_summaries "" = Py.Ok combined
    /\ Summarizer.create_comprehensive_summary Scenario.terse_provider Scenario.str_mock
         Scenario.two_summaries "test query" (Summarizer.State [])
       = ((true, "Short."),
          Summarizer.State [Summarizer._create_comprehensive_prompt combined "test query"]).
Proof.
  eexists. split; [reflexivity|].
  refine (proj2 (proj2 (proj2 (proj2 (proj2 (proj2
            (summarizer_failure_taxonomy Scenario.terse_provider Scenario.str_mock
               "" "test query" false Scenario.two_summaries _ (Summarizer.State []) _))))))
            "Short." _).
  - reflexivity.
  - reflexivity.
Defined.

(** The same answer is too short for [summarize]. *)
Example summarize_short_text :
  fst (Summarizer.summarize Scenario.terse_provider "This is test content."
         "test query" false (Summarizer.State []))
  = (false, "Generated summary was too short or empty").
Proof. reflexivity. Qed.

Example combine_two_summaries :
  Summarizer.combine Scenario.str_mock 1 Scenario.two_summaries ""
  = Py.Ok (Summarizer.nl +:+ Summarizer.nl +:+ "SOURCE 1: Source 1" +:+ Summarizer.nl
           +:+ "Summary of source 1" +:+ Summarizer.nl
           +:+ "URL: https://example.com/1" +:+ Summarizer.nl
           +:+ Summarizer.nl +:+ Summarizer.nl +:+ "SOURCE 2: Source 2" +:+ Summarizer.nl
           +:+ "Summary of source 2" +:+ Summarizer.nl
           +:+ "URL: https://example.com/2" +:+ Summarizer.nl).
Proof. reflexivity. Qed.

(** * The orchestrator on concrete collaborators *)

(** What the Result Fetcher returns is a list of hits. *)
Lemma get_top_results_hits self_api_key requests_get raise_for_status query num_results st :
  forallb Agent.is_hit
    (fst (SearchTool.get_top_results self_api_key requests_get raise_for_status
            query num_results st)) = true.
Proof.
  unfold SearchTool.get_top_results.
  destruct (SearchTool.search _ _ _ _ _ _ _) as [raw st']. cbn [fst].
  induction raw as [|r raw IH]; [reflexivity|].
  rewrite fmap_cons. cbn [forallb]. rewrite IH, andb_true_r.
  unfold Agent.is_hit, Agent.has_key, SearchTool.processed_result.
  reflexivity.
Qed.

(** Witness of [research_no_results]: a query without hits. *)
Lemma research_no_results_witness :
  exists result st',
    Scenario.research "no such thing" = (Py.Ok result, st')
    /\ result !! "success" = Some (Py.PyBool false)
    /\ result !! "error" = Some (Py.PyStr "No search results found")
    /\ result !! "results" = Some (Py.PyList [])
    /\ result !! "comprehensive_summary" = Some Py.PyNone
    /\ Agent.world st' = tt
    /\ Agent.calls st' = [] ++ [Agent.CallGetTopResults "no such thing" 5].
Proof.
  apply (research_no_results Scenario.top_results Scenario.scrape_mock
           Scenario.summarize_mock Scenario.synthesis_mock
           "no such thing" 5 false (Agent.State tt []) tt).
  reflexivity.
Defined.

(** Witness of [research_success_iff_some_item]: two hits, the second
    of which cannot be scraped. *)
Lemma research_success_iff_some_item_witness :
  exists result st' items,
    Scenario.research "two hits" = (Py.Ok result, st')
    /\ result !! "results" = Some (Py.PyList (Py.PyDict <$> items))
    /\ result !! "success" = Some (Py.PyBool (existsb Agent.succeeded items)).
Proof.
  apply (research_success_iff_some_item Scenario.top_results Scenario.scrape_mock
           Scenario.summarize_mock Scenario.synthesis_mock
           "two hits" 5 false (Agent.State tt []) [Scenario.hit_a; Scenario.hit_b] tt).
  - reflexivity.
  - discriminate.
  - reflexivity.
Defined.

(** Witness of [research_results_shape], on the same run. *)
Lemma research_results_shape_witness :
  exists result st' items,
    Scenario.research "two hits" = (Py.Ok result, st')
    /\ result !! "results" = Some (Py.PyList (Py.PyDict <$> items))
    /\ length items = length [Scenario.hit_a; Scenario.hit_b]
    /\ forall (i : nat) (hit item : Py.dict),
         [Scenario.hit_a; Scenario.hit_b] !! i = Some hit -> items !! i = Some item ->
         Agent.same_source hit item
         /\ (Agent.successful_item item \/ Agent.failed_item item)
         /\ exists sums_i st_i link,
              Agent.process_results Scenario.scrape_mock Scenario.summarize_mock
                i 0 "two hits" false [Scenario.hit_a; Scenario.hit_b] []
                (Agent.State tt ([] ++ [Agent.CallGetTopResults "two hits" 5]))
                = (Py.Ok (take i items ++ drop i [Scenario.hit_a; Scenario.hit_b], sums_i),
                   st_i)
              /\ hit !! "link" = Some link
              /\ Agent.item_outcome item
                   (fst (Scenario.scrape_mock link (Agent.world st_i)))
                   (fst (Scenario.summarize_mock
                           (snd (fst (Scenario.scrape_mock link (Agent.world st_i))))
                           "two hits" false
                           (snd (Scenario.scrape_mock link (Agent.world st_i))))).
Proof.
  apply (research_results_shape Scenario.top_results Scenario.scrape_mock
           Scenario.summarize_mock Scenario.synthesis_mock
           "two hits" 5 false (Agent.State tt []) [Scenario.hit_a; Scenario.hit_b] tt).
  - reflexivity.
  - discriminate.
  - reflexivity.
Defined.

(** Witness of [research_comprehensive_summary], with a synthesis that
    fails: the summary is None although an item succeeded. *)
Lemma research_comprehensive_summary_witness :
  exists items sums st1 result st' v,
    Agent.process_results Scenario.scrape_mock Scenario.summarize_mock
      (length [Scenario.hit_a; Scenario.hit_b]) 0 "two hits" false
      [Scenario.hit_a; Scenario.hit_b] []
      (Agent.State tt ([] ++ [Agent.CallGetTopResults "two hits" 5]))
      = (Py.Ok (items, sums), st1)
    /\ Agent.research Scenario.top_results Scenario.scrape_mock Scenario.summarize_mock
         Scenario.synthesis_failing "two hits" 5 false (Agent.State tt [])
       = (Py.Ok result, st')
    /\ (sums <> [] <-> existsb Agent.succeeded items = true)
    /\ result !! "comprehensive_summary" = Some v
    /\ (v <> Py.PyNone <->
        sums <> []
        /\ fst (fst (Scenario.synthesis_failing sums "two hits" (Agent.world st1))) = true)
    /\ (v <> Py.PyNone ->
        v = Py.PyStr
              (snd (fst (Scenario.synthesis_failing sums "two hits" (Agent.world st1)))))
    /\ (sums <> [] ->
        result !! "error" = None
        /\ Agent.calls st' =
           Agent.calls st1 ++ [Agent.CallCreateComprehensiveSummary sums "two hits"])
    /\ (sums = [] -> st' = st1).
Proof.
  apply (research_comprehensive_summary Scenario.top_results Scenario.scrape_mock
           Scenario.summarize_mock Scenario.synthesis_failing
           "two hits" 5 false (Agent.State tt []) [Scenario.hit_a; Scenario.hit_b] tt).
  - reflexivity.
  - reflexivity.
Defined.

(** Witness of [research_failed_item]: the hit that cannot be scraped
    comes second. *)
Lemma research_failed_item_witness :
  exists items1 sums1 st1 item sums2 st2 link result st' items,
    Agent.process_results Scenario.scrape_mock Scenario.summarize_mock
      (length [Scenario.hit_a]) 0 "two hits" false
      ([Scenario.hit_a] ++ Scenario.hit_b :: []) []
      (Agent.State tt ([] ++ [Agent.CallGetTopResults "two hits" 5]))
      = (Py.Ok (items1 ++ Scenario.hit_b :: [], sums1), st1)
    /\ Agent.process_result Scenario.scrape_mock Scenario.summarize_mock
         "two hits" false Scenario.hit_b sums1 st1 = (Py.Ok (item, sums2), st2)
    /\ Scenario.hit_b !! "link" = Some link
    /\ Scenario.research "two hits" = (Py.Ok result, st')
    /\ result !! "results" = Some (Py.PyList (Py.PyDict <$> items))
    /\ items !! length [Scenario.hit_a] = Some item
    /\ (forall err w1,
          Scenario.scrape_mock link (Agent.world st1) = ((false, err), w1) ->
          item !! "success" = Some (Py.PyBool false)
          /\ item !! "error" = Some (Py.PyStr err)
          /\ sums2 = sums1
          /\ st2 = Agent.State w1 (Agent.calls st1 ++ [Agent.CallScrape link]))
    /\ (forall content w1 err w2,
          Scenario.scrape_mock link (Agent.world st1) = ((true, content), w1) ->
          Scenario.summarize_mock content "two hits" false w1 = ((false, err), w2) ->
          item !! "success" = Some (Py.PyBool false)
          /\ item !! "error" = Some (Py.PyStr err)
          /\ sums2 = sums1).
Proof.
  apply (research_failed_item Scenario.top_results Scenario.scrape_mock
           Scenario.summarize_mock Scenario.synthesis_mock
           "two hits" 5 false (Agent.State tt []) [Scenario.hit_a] Scenario.hit_b [] tt).
  - reflexivity.
  - reflexivity.
Defined.

(** The two scenarios of the orchestrator's tests. *)
Example research_flow :
  Scenario.research "test query"
  = (Py.Ok ({[ "success" := Py.PyBool true;
               "query" := Py.PyStr "test query";
               "results" :=
                 Py.PyList
                   [ Py.PyDict
                       {[ "title" := Py.PyStr "Test Result";
                          "link" := Py.PyStr "https://example.com";
                          "snippet" := Py.PyStr "Test snippet";
                          "success" := Py.PyBool true;
                          "summary" := Py.PyStr "Test summary";
                          "content" := Py.PyStr "Test content" ]} ];
               "comprehensive_summary" := Py.PyStr "Comprehensive summary" ]}),
     Agent.State tt
       [ Agent.CallGetTopResults "test query" 5;
         Agent.CallScrape (Py.PyStr "https://example.com");
         Agent.CallSummarize "Test content" "test query" false;
         Agent.CallCreateComprehensiveSummary
           [ {[ "title" := Py.PyStr "Test Result";
                "link" := Py.PyStr "https://example.com";
                "summary" := Py.PyStr "Test summary" ]} ] "test query" ]).
Proof. vm_compute. reflexivity. Qed.

Example research_scraping_failure :
  Scenario.research "broken query"
  = (Py.Ok ({[ "success" := Py.PyBool false;
               "query" := Py.PyStr "broken query";
               "results" :=
                 Py.PyList
                   [ Py.PyDict
                       {[ "title" := Py.PyStr "Broken Result";
                          "link" := Py.PyStr "https://example.org/broken";
                          "snippet" := Py.PyStr "Broken snippet";
                          "success" := Py.PyBool false;
                          "error" := Py.PyStr "Failed to scrape content" ]} ];
               "comprehensive_summary" := Py.PyNone ]}),
     Agent.State tt
       [ Agent.CallGetTopResults "broken query" 5;
         Agent.CallScrape (Py.PyStr "https://example.org/broken") ]).
Proof. vm_compute. reflexivity. Qed.

(** A failed synthesis is absorbed: the run is a success and the
    comprehensive summary is None. *)
Example research_synthesis_failure :
  fst (Agent.research Scenario.top_results Scenario.scrape_mock Scenario.summarize_mock
         Scenario.synthesis_failing "test query" 5 false (Agent.State tt []))
  = Py.Ok ({[ "success" := Py.PyBool true;
              "query" := Py.PyStr "test query";
              "results" :=
                Py.PyList
                  [ Py.PyDict
                      {[ "title" := Py.PyStr "Test Result";
                         "link" := Py.PyStr "https://example.com";
                         "snippet" := Py.PyStr "Test snippet";
                         "success" := Py.PyBool true;
                         "summary" := Py.PyStr "Test summary";
                         "content" := Py.PyStr "Test content" ]} ];
              "comprehensive_summary" := Py.PyNone ]}).
Proof. vm_compute. reflexivity. Qed.

(** * Further properties of the search client *)

Section SearchToolMore.
Import Py SearchTool.
Variable self_api_key : string.
Variable requests_get : nat -> string -> params -> res response.
Variable raise_for_status : response -> option string.

#[local] Abbreviation try_search2 := (try_search requests_get raise_for_status).
#[local] Abbreviation search_attempt2 := (search_attempt requests_get raise_for_status).
#[local] Abbreviation search_loop2 := (search_loop requests_get raise_for_status).
#[local] Abbreviation search2 := (search self_api_key requests_get raise_for_status).
#[local] Abbreviation rate_limited2 := (rate_limited requests_get raise_for_status).

(** How one attempt leaves the state. *)
Lemma search_attempt_state p max_retries attempt st f st' :
  search_attempt2 p max_retries attempt st = (f, st') ->
  match f with
  | Return _ => st' = State (S (gets st)) (sleeps st)
  | Continue =>
      attempt < max_retries - 1
      /\ st' = State (S (gets st)) (sleeps st ++ [2 ^ attempt])
  end.
Proof.
  unfold search_attempt.
  destruct (try_search2 p st) as [[results|e] st1] eqn:Htry;
    apply try_search_state in Htry; subst st1; cbv beta iota.
  - intros H. inversion H. subst. reflexivity.
  - destruct e;
      repeat match goal with
        | |- context [if ?c then _ else _] => destruct c eqn:?
        end;
      intros H; inversion H; subst; try reflexivity;
      (split; [|reflexivity]).
    all: try (apply Z.ltb_lt; assumption).
    apply andb_prop in Heqb as [_ Hlt]. apply Z.ltb_lt. exact Hlt.
Qed.

Lemma backoff_from_cons (i : Z) (k : nat) :
  backoff_from i (S k) = 2 ^ i :: backoff_from (Z.succ i) k.
Proof.
  unfold backoff_from. rewrite (seqZ_cons i) by lia. rewrite fmap_cons.
  replace (Z.pred (Z.of_nat (S k))) with (Z.of_nat k) by lia. reflexivity.
Qed.

(** With [m >= 1] attempts left, the loop sends [k + 1 <= m] requests and
    sleeps the back-off of the [k] attempts it retried. *)
Lemma search_loop_state p max_retries (m : nat) :
  forall (i : Z) st,
    i + Z.of_nat (S m) = max_retries ->
    exists k : nat,
      (k <= m)%nat
      /\ snd (search_loop2 p max_retries (seqZ i (Z.of_nat (S m))) st)
         = State (gets st + S k) (sleeps st ++ backoff_from i k).
Proof.
  induction m as [|m IH]; intros i st Hmax.
  - rewrite (seqZ_cons i) by lia. cbn [search_loop].
    destruct (search_attempt2 p max_retries i st) as [[results|] st1] eqn:Hatt;
      apply search_attempt_state in Hatt.
    + subst st1. exists 0%nat. split; [lia|]. cbn [snd].
      unfold backoff_from. simpl. rewrite app_nil_r, Nat.add_1_r. reflexivity.
    + destruct Hatt as [Hlt _]. lia.
  - rewrite (seqZ_cons i) by lia. cbn [search_loop].
    replace (Z.pred (Z.of_nat (S (S m)))) with (Z.of_nat (S m)) by lia.
    destruct (search_attempt2 p max_retries i st) as [[results|] st1] eqn:Hatt;
      apply search_attempt_state in Hatt.
    + subst st1. exists 0%nat. split; [lia|]. cbn [snd].
      unfold backoff_from. simpl. rewrite app_nil_r, Nat.add_1_r. reflexivity.
    + destruct Hatt as [_ ->].
      destruct (IH (Z.succ i) (State (S (gets st)) (sleeps st ++ [2 ^ i])) ltac:(lia))
        as (k & Hk & Hst).
      exists (S k). split; [lia|]. rewrite Hst. cbn [gets sleeps].
      rewrite backoff_from_cons, <- app_assoc. f_equal. lia.
Qed.

(** X1: [search] with no attempt allowed sends nothing and returns the
    empty list.  Otherwise it sends between one and [max_retries] requests,
    and the sleeps between them are 1, 2, 4, ... seconds, one per retried
    attempt, whatever the network answers. *)
Theorem search_requests_and_backoff query num_results max_retries st :
  (max_retries <= 0 -> search2 query num_results max_retries st = ([], st))
  /\ (1 <= max_retries ->
      exists k : nat,
        Z.of_nat k < max_retries
        /\ snd (search2 query num_results max_retries st)
           = State (gets st + S k) (sleeps st ++ backoff k)).
Proof.
  unfold search. split.
  - intros Hle. rewrite seqZ_nil by lia. reflexivity.
  - intros Hge.
    destruct (search_loop_state
                (Params query self_api_key "google" (Z.min num_results 10))
                max_retries (Z.to_nat (max_retries - 1)) 0 st ltac:(lia))
      as (k & Hk & Hst).
    replace (Z.of_nat (S (Z.to_nat (max_retries - 1)))) with max_retries in Hst by lia.
    exists k. split; [lia|]. exact Hst.
Qed.

End SearchToolMore.

Section SearchToolMore2.
Import Py SearchTool.
Variable self_api_key : string.
Variable requests_get : nat -> string -> params -> res response.
Variable raise_for_status : response -> option string.

#[local] Abbreviation try_search3 := (try_search requests_get raise_for_status).
#[local] Abbreviation search_attempt3 := (search_attempt requests_get raise_for_status).
#[local] Abbreviation search_loop3 := (search_loop requests_get raise_for_status).
#[local] Abbreviation search3 := (search self_api_key requests_get raise_for_status).
#[local] Abbreviation rate_limited3 := (rate_limited requests_get raise_for_status).

(** A non-empty result of the [try] block is the [organic_results] entry
    of the response to the request just sent. *)
Lemma try_search_results p st (results : list dict) st' :
  try_search3 p st = (Ok results, st') ->
  results <> [] ->
  exists r body,
    requests_get (gets st) base_url p = Ok r
    /\ status_code r <> 401
    /\ raise_for_status r = None
    /\ json r = Ok body
    /\ body !! "organic_results" = Some results.
Proof.
  unfold try_search. intros H Hne.
  destruct (requests_get (gets st) base_url p) as [r|e]; [|discriminate].
  destruct (Z.eqb_spec (status_code r) 401) as [|Hstatus]; [congruence|].
  destruct (raise_for_status r) eqn:Hrfs; [discriminate|].
  destruct (json r) as [body|e] eqn:Hjson; [|discriminate].
  destruct (body !! "organic_results") as [l|] eqn:Hkey; [|congruence].
  exists r, body. repeat split; try assumption; congruence.
Qed.

Lemma search_attempt_results p max_retries attempt st (results : list dict) st' :
  search_attempt3 p max_retries attempt st = (Return results, st') ->
  results <> [] ->
  try_search3 p st = (Ok results, st').
Proof.
  unfold search_attempt.
  destruct (try_search3 p st) as [[l|e] st1]; cbv beta iota.
  - intros H. inversion H. reflexivity.
  - destruct e;
      repeat match goal with
        | |- context [if ?c then _ else _] => destruct c
        end;
      intros H; inversion H; congruence.
Qed.

Lemma search_loop_results p max_retries (attempts : list Z) :
  forall st (results : list dict) st',
    search_loop3 p max_retries attempts st = (results, st') ->
    results <> [] ->
    exists st1, (gets st <= gets st1)%nat /\ try_search3 p st1 = (Ok results, st').
Proof.
  induction attempts as [|attempt attempts IH]; intros st results st' H Hne;
    cbn [search_loop] in H.
  - congruence.
  - destruct (search_attempt3 p max_retries attempt st) as [[l|] st1] eqn:Hatt.
    + inversion H. subst. exists st. split; [lia|].
      eapply search_attempt_results; eassumption.
    + apply search_attempt_state in Hatt as [_ ->].
      destruct (IH _ _ _ H Hne) as (st2 & Hle & Htry).
      exists st2. split; [cbn [gets] in Hle; lia|exact Htry].
Qed.

(** X2: [search] never makes results up.  A non-empty result is the
    [organic_results] entry of the answer to the last request sent, and
    that answer was not a 401 and passed [raise_for_status]. *)
Theorem search_results_from_response query num_results max_retries st
    (results : list dict) st' :
  search3 query num_results max_retries st = (results, st') ->
  results <> [] ->
  exists r body,
    (gets st < gets st')%nat
    /\ requests_get (Nat.pred (gets st')) base_url
         (Params query self_api_key "google" (Z.min num_results 10)) = Ok r
    /\ status_code r <> 401
    /\ raise_for_status r = None
    /\ json r = Ok body
    /\ body !! "organic_results" = Some results.
Proof.
  unfold search. intros H Hne.
  destruct (search_loop_results _ _ _ _ _ _ H Hne) as (st1 & Hle & Htry).
  pose proof (try_search_state _ _ _ _ _ _ Htry) as ->.
  destruct (try_search_results _ _ _ _ Htry Hne) as (r & body & Hget & Hrest).
  exists r, body. cbn [gets Nat.pred]. split; [lia|]. split; [exact Hget|exact Hrest].
Qed.

(** Attempts answered 429 while attempts remain cost one request and one
    back-off sleep each, and lead to the next attempt. *)
Lemma search_loop_rate_limited p max_retries (k : nat) :
  forall (i : Z) st,
    0 <= i -> i + Z.of_nat k < max_retries ->
    rate_limited3 p (gets st) k ->
    search_loop3 p max_retries (seqZ i (max_retries - i)) st =
    search_loop3 p max_retries
      (seqZ (i + Z.of_nat k) (max_retries - i - Z.of_nat k))
      (State (gets st + k) (sleeps st ++ backoff_from i k)).
Proof.
  induction k as [|k IH]; intros i st Hi Hk Hlim.
  - unfold backoff_from. simpl. rewrite app_nil_r, Nat.add_0_r, Z.add_0_r, Z.sub_0_r.
    destruct st. reflexivity.
  - rewrite (seqZ_cons i) by lia. cbn [search_loop].
    destruct (Hlim 0%nat ltac:(lia)) as (r & msg & Hget & H429 & Hrfs).
    rewrite Nat.add_0_r in Hget.
    unfold search_attempt, try_search. rewrite Hget, H429.
    change (429 =? 401) with false. cbv beta iota. rewrite Hrfs. cbv beta iota.
    change (429 =? 429) with true. cbn [andb].
    destruct (Z.ltb_spec i (max_retries - 1)) as [_|Hge]; [|lia].
    replace (Z.pred (max_retries - i)) with (max_retries - Z.succ i) by lia.
    unfold sleep. cbn [gets sleeps].
    rewrite (IH (Z.succ i) (State (S (gets st)) (sleeps st ++ [2 ^ i]))); try lia.
    + cbn [gets sleeps].
      replace (Z.succ i + Z.of_nat k) with (i + Z.of_nat (S k)) by lia.
      replace (max_retries - Z.succ i - Z.of_nat k)
        with (max_retries - i - Z.of_nat (S k)) by lia.
      replace (S (gets st) + k)%nat with (gets st + S k)%nat by lia.
      rewrite backoff_from_cons, <- app_assoc. reflexivity.
    + intros j Hj. cbn [gets sleeps].
      destruct (Hlim (S j) ltac:(lia)) as (r' & msg' & Hget' & Hrest').
      exists r', msg'. split; [|exact Hrest'].
      rewrite <- Hget'. f_equal. lia.
Qed.

(** X3: after [k] rate-limited attempts, each followed by its back-off
    sleep, attempt [k] decides: a 401 gives the empty list; an accepted
    answer gives its [organic_results], or the empty list when the key is
    absent; one more 429 on the last attempt gives the empty list. *)
Theorem search_after_rate_limits query num_results max_retries (k : nat) st :
  Z.of_nat k < max_retries ->
  rate_limited3 (Params query self_api_key "google" (Z.min num_results 10)) (gets st) k ->
  (forall r,
     requests_get (gets st + k) base_url
       (Params query self_api_key "google" (Z.min num_results 10)) = Ok r ->
     status_code r = 401 ->
     search3 query num_results max_retries st
       = ([], State (S (gets st + k)) (sleeps st ++ backoff k)))
  /\ (forall r body,
       requests_get (gets st + k) base_url
         (Params query self_api_key "google" (Z.min num_results 10)) = Ok r ->
       status_code r <> 401 -> raise_for_status r = None -> json r = Ok body ->
       search3 query num_results max_retries st
         = (default [] (body !! "organic_results"),
            State (S (gets st + k)) (sleeps st ++ backoff k)))
  /\ (forall r msg,
       requests_get (gets st + k) base_url
         (Params query self_api_key "google" (Z.min num_results 10)) = Ok r ->
       status_code r = 429 -> raise_for_status r = Some msg ->
       Z.of_nat k = max_retries - 1 ->
       search3 query num_results max_retries st
         = ([], State (S (gets st + k)) (sleeps st ++ backoff k))).
Proof.
  intros Hk Hlim. unfold search.
  pose proof (search_loop_rate_limited _ max_retries k 0 st ltac:(lia) ltac:(lia) Hlim)
    as H.
  rewrite Z.sub_0_r, Z.add_0_l in H. rewrite H. clear H.
  rewrite (seqZ_cons (Z.of_nat k)) by lia. cbn [search_loop].
  unfold search_attempt, try_search. cbn [gets sleeps]. fold (backoff k).
  split; [|split].
  - intros r -> ->. reflexivity.
  - intros r body -> Hne -> ->.
    destruct (Z.eqb_spec (status_code r) 401) as [|_]; [contradiction|].
    destruct (body !! "organic_results"); reflexivity.
  - intros r msg -> H429 Hrfs Hlast. rewrite H429.
    change (429 =? 401) with false. cbv beta iota. rewrite Hrfs. cbv beta iota.
    change (429 =? 429) with true. cbn [andb].
    destruct (Z.ltb_spec (Z.of_nat k) (max_retries - 1)) as [Hlt|_]; [lia|].
    reflexivity.
Qed.

End SearchToolMore2.

(** Witness of [search_results_from_response]: a connection error, then
    the answer whose results are returned. *)
Lemma search_results_from_response_witness :
  exists r body,
    (0 < 2)%nat
    /\ Scenario.flaky_get 1%nat
         SearchTool.base_url
         (SearchTool.Params "test query" "mock_api_key" "google" (Z.min 5 10)) = Py.Ok r
    /\ SearchTool.status_code r <> 401
    /\ Scenario.serp_status r = None
    /\ SearchTool.json r = Py.Ok body
    /\ body !! "organic_results" = Some [Scenario.raw_result].
Proof.
  apply (search_results_from_response "mock_api_key" Scenario.flaky_get
           Scenario.serp_status "test query" 5 3 (SearchTool.State 0 [])
           [Scenario.raw_result] (SearchTool.State 2 [1])).
  - reflexivity.
  - discriminate.
Defined.

Lemma limited_get_rate_limited (p : SearchTool.params) :
  SearchTool.rate_limited Scenario.limited_get Scenario.serp_status p 0 1.
Proof.
  intros j Hj. destruct j as [|j]; [|lia].
  eexists _, _. split; [reflexivity|]. split; reflexivity.
Qed.

(** Witness of [search_after_rate_limits]: one 429, then a good answer. *)
Lemma search_after_rate_limits_witness :
  SearchTool.search "mock_api_key" Scenario.limited_get Scenario.serp_status
    "test query" 5 3 (SearchTool.State 0 [])
  = ([Scenario.raw_result], SearchTool.State 2 [1]).
Proof.
  refine (proj1 (proj2 (search_after_rate_limits "mock_api_key" Scenario.limited_get
            Scenario.serp_status "test query" 5 3 1 (SearchTool.State 0 []) _ _))
            Scenario.serp_ok {[ "organic_results" := [Scenario.raw_result] ]} _ _ _ _).
  - reflexivity.
  - apply limited_get_rate_limited.
  - reflexivity.
  - discriminate.
  - reflexivity.
  - reflexivity.
Defined.

(** The processed result has the three keys and nothing else; the fields
    the provider gave are kept, the others get their default. *)
Lemma processed_result_dom (result : Py.dict) :
  dom (SearchTool.processed_result result) = SearchTool.hit_keys.
Proof.
  unfold SearchTool.processed_result, SearchTool.hit_keys.
  rewrite !dom_insert_L, dom_singleton_L. set_solver.
Qed.

Lemma processed_result_idempotent (result : Py.dict) :
  SearchTool.processed_result (SearchTool.processed_result result)
  = SearchTool.processed_result result.
Proof.
  unfold SearchTool.processed_result at 1. 
  replace (SearchTool.processed_result result !! "title") with (Some (default (Py.PyStr "No Title") (result !! "title"))) by reflexivity.
  replace (SearchTool.processed_result result !! "snippet") with (Some (default (Py.PyStr "No snippet available") (result !! "snippet"))) by reflexivity.
  replace (SearchTool.processed_result result !! "link") with (Some (default (Py.PyStr "#") (result !! "link"))) by reflexivity.
  reflexivity.
Qed.

(** X4: [get_top_results] returns one hit per raw result, in order; a
    hit has the keys title, snippet and link and no other (provider fields
    such as [position] are dropped); each field is the provider's when it
    gave one and the default otherwise; processing a hit again changes
    nothing.  The search is run with three attempts. *)
Theorem get_top_results_normalized self_api_key requests_get raise_for_status
    query num_results st :
  Forall2
    (fun raw hit : Py.dict =>
       dom hit = SearchTool.hit_keys
       /\ hit !! "title" = Some (default (Py.PyStr "No Title") (raw !! "title"))
       /\ hit !! "snippet"
          = Some (default (Py.PyStr "No snippet available") (raw !! "snippet"))
       /\ hit !! "link" = Some (default (Py.PyStr "#") (raw !! "link"))
       /\ SearchTool.processed_result hit = hit)
    (fst (SearchTool.search self_api_key requests_get raise_for_status
            query num_results 3 st))
    (fst (SearchTool.get_top_results self_api_key requests_get raise_for_status
            query num_results st))
  /\ snd (SearchTool.get_top_results self_api_key requests_get raise_for_status
            query num_results st)
     = snd (SearchTool.search self_api_key requests_get raise_for_status
              query num_results 3 st).
Proof.
  unfold SearchTool.get_top_results.
  destruct (SearchTool.search _ _ _ _ _ _ _) as [raw st']. cbn [fst snd].
  split; [|reflexivity].
  induction raw as [|r raw IH]; [constructor|].
  rewrite fmap_cons. constructor; [|exact IH].
  split; [apply processed_result_dom|].
  split; [reflexivity|]. split; [reflexivity|]. split; [reflexivity|].
  apply processed_result_idempotent.
Qed.

(** A result without title and link, as the provider may send it. *)
Example processed_result_defaults :
  SearchTool.processed_result {[ "position" := Py.PyInt 3;
                                 "snippet" := Py.PyStr "Only a snippet." ]}
  = {[ "title" := Py.PyStr "No Title";
       "snippet" := Py.PyStr "Only a snippet.";
       "link" := Py.PyStr "#" ]}.
Proof. reflexivity. Qed.

(** * Further properties of the page fetcher *)

Lemma length_append (s1 s2 : string) :
  String.length (s1 +:+ s2) = (String.length s1 + String.length s2)%nat.
Proof.
  pose proof (len_append s1 s2) as H. unfold Py.len in H. lia.
Qed.

Lemma lower_append (s1 s2 : string) :
  Py.lower (s1 +:+ s2) = Py.lower s1 +:+ Py.lower s2.
Proof.
  induction s1 as [|c s1 IH]; [reflexivity|].
  change (String c s1 +:+ s2) with (String c (s1 +:+ s2)).
  cbn [Py.lower]. rewrite IH. reflexivity.
Qed.

Lemma endswith_append (s1 s2 : string) : Py.endswith (s1 +:+ s2) s2 = true.
Proof.
  unfold Py.endswith. rewrite length_append.
  replace (String.length s1 + String.length s2 - String.length s2)%nat
    with (String.length s1) by lia.
  rewrite str_drop_append, String.eqb_refl, andb_true_r.
  apply Nat.leb_le. lia.
Qed.

(** X5: a URL whose end, lower-cased, is one of the listed extensions is
    skipped, whatever comes before and whatever the letter case. *)
Theorem should_skip_url_extension (base suffix ext : string) :
  In ext Scraper.skip_extensions ->
  Py.lower suffix = ext ->
  Scraper._should_skip_url (base +:+ suffix) = true.
Proof.
  intros Hin Hlow. unfold Scraper._should_skip_url.
  apply existsb_exists. exists ext. split; [exact Hin|].
  rewrite lower_append, Hlow. apply endswith_append.
Qed.

Lemma should_skip_url_extension_witness :
  Scraper._should_skip_url ("https://example.com/Annual-Report" +:+ ".PDF") = true.
Proof.
  apply (should_skip_url_extension "https://example.com/Annual-Report" ".PDF" ".pdf").
  - simpl. tauto.
  - reflexivity.
Defined.

Section ScraperMore.
Import Py Scraper.
Variable urlparse : string -> res (string * string).
Variable requests_get : nat -> string -> res response.
Variable raise_for_status : response -> option string.
Variable _extract_main_content : string -> res string.

#[local] Abbreviation try_scrape2 :=
  (try_scrape requests_get raise_for_status _extract_main_content).
#[local] Abbreviation scrape_attempt2 :=
  (scrape_attempt requests_get raise_for_status _extract_main_content).
#[local] Abbreviation scrape_loop2 :=
  (scrape_loop requests_get raise_for_status _extract_main_content).
#[local] Abbreviation scrape2 :=
  (scrape urlparse requests_get raise_for_status _extract_main_content).
#[local] Abbreviation timeouts2 := (timeouts requests_get).

(** How one attempt leaves the state, and what it cannot return. *)
Lemma scrape_attempt_state url max_retries attempt st f st' :
  scrape_attempt2 url max_retries attempt st = (f, st') ->
  match f with
  | Return r =>
      st' = State (S (gets st)) (sleeps st)
      /\ r <> (false, "Failed after multiple attempts.")
  | Continue =>
      attempt < max_retries - 1
      /\ st' = State (S (gets st)) (sleeps st ++ [1])
  end.
Proof.
  unfold scrape_attempt.
  destruct (try_scrape2 url st) as [[r|e] st1] eqn:Htry; cbv beta iota.
  - pose proof (try_scrape_state _ _ _ _ _ _ _ Htry) as ->.
    intros H. inversion H. subst. split; [reflexivity|].
    unfold try_scrape in Htry.
    destruct (requests_get (gets st) url) as [response|e]; [|discriminate].
    destruct (raise_for_status response); [discriminate|].
    destruct (negb _).
    { intros ->. cbv [String.append] in Htry. discriminate Htry. }
    destruct (_extract_main_content (text response)) as [content|e]; [|discriminate].
    destruct (_ || _); intros ->; discriminate Htry.
  - pose proof (try_scrape_state _ _ _ _ _ _ _ Htry) as ->.
    destruct e;
      repeat match goal with
        | |- context [if ?c then _ else _] => destruct c eqn:?
        end;
      intros H; inversion H; subst;
      try (split; [reflexivity|]; intros Heq; cbv [String.append] in Heq;
           discriminate Heq).
    split; [apply Z.ltb_lt; assumption|reflexivity].
Qed.

(** With [m + 1] attempts left, the loop sends [k + 1 <= m + 1] requests,
    sleeps one second after each of the [k] it retried, and does not fall
    through to the final [return]. *)
Lemma scrape_loop_state url max_retries (m : nat) :
  forall (i : Z) st,
    i + Z.of_nat (S m) = max_retries ->
    exists k : nat,
      (k <= m)%nat
      /\ snd (scrape_loop2 url max_retries (seqZ i (Z.of_nat (S m))) st)
         = State (gets st + S k) (sleeps st ++ replicate k 1)
      /\ fst (scrape_loop2 url max_retries (seqZ i (Z.of_nat (S m))) st)
         <> (false, "Failed after multiple attempts.").
Proof.
  induction m as [|m IH]; intros i st Hmax.
  - rewrite (seqZ_cons i) by lia. cbn [scrape_loop].
    destruct (scrape_attempt2 url max_retries i st) as [[r|] st1] eqn:Hatt;
      apply scrape_attempt_state in Hatt.
    + destruct Hatt as [-> Hr]. exists 0%nat. split; [lia|]. cbn [fst snd].
      simpl replicate. rewrite app_nil_r, Nat.add_1_r. split; [reflexivity|exact Hr].
    + destruct Hatt as [Hlt _]. lia.
  - rewrite (seqZ_cons i) by lia. cbn [scrape_loop].
    replace (Z.pred (Z.of_nat (S (S m)))) with (Z.of_nat (S m)) by lia.
    destruct (scrape_attempt2 url max_retries i st) as [[r|] st1] eqn:Hatt;
      apply scrape_attempt_state in Hatt.
    + destruct Hatt as [-> Hr]. exists 0%nat. split; [lia|]. cbn [fst snd].
      simpl replicate. rewrite app_nil_r, Nat.add_1_r. split; [reflexivity|exact Hr].
    + destruct Hatt as [_ ->].
      destruct (IH (Z.succ i) (State (S (gets st)) (sleeps st ++ [1])) ltac:(lia))
        as (k & Hk & Hst & Hr).
      exists (S k). split; [lia|]. rewrite Hst. cbn [gets sleeps].
      split; [|exact Hr].
      rewrite <- app_assoc. f_equal. lia.
Qed.

(** X6: [scrape] sends at most [max_retries] requests, none for an
    invalid or skipped URL; between two requests it sleeps one second and
    it does not sleep otherwise; without a request it fails. *)
Theorem scrape_requests_and_sleeps url max_retries st :
  exists k : nat,
    Z.of_nat k <= Z.max 0 max_retries
    /\ snd (scrape2 url max_retries st)
       = State (gets st + k) (sleeps st ++ replicate (Nat.pred k) 1)
    /\ (k = 0%nat -> fst (fst (scrape2 url max_retries st)) = false)
    /\ (_is_valid_url urlparse url = false \/ _should_skip_url url = true ->
        k = 0%nat).
Proof.
  unfold scrape.
  destruct (_is_valid_url urlparse url) eqn:Hvalid; cbn [negb].
  2:{ exists 0%nat. cbn [fst snd]. rewrite app_nil_r, Nat.add_0_r.
      destruct st. repeat split; try reflexivity; lia. }
  destruct (_should_skip_url url) eqn:Hskip.
  { exists 0%nat. cbn [fst snd]. rewrite app_nil_r, Nat.add_0_r.
    destruct st. repeat split; try reflexivity; lia. }
  destruct (Z.le_gt_cases max_retries 0) as [Hle|Hgt].
  - rewrite seqZ_nil by lia. exists 0%nat. cbn [fst snd scrape_loop].
    rewrite app_nil_r, Nat.add_0_r. destruct st. repeat split; try reflexivity; lia.
  - destruct (scrape_loop_state url max_retries (Z.to_nat (max_retries - 1)) 0 st
                ltac:(lia)) as (k & Hk & Hst & _).
    replace (Z.of_nat (S (Z.to_nat (max_retries - 1)))) with max_retries in Hst by lia.
    exists (S k). split; [lia|]. split; [exact Hst|].
    split; [discriminate|]. intros [H|H]; discriminate H.
Qed.

(** X7: the [return] after the loop is reached only when no attempt is
    allowed: [scrape] answers "Failed after multiple attempts." exactly for
    a valid, not skipped URL with [max_retries <= 0]. *)
Theorem scrape_fallthrough url max_retries st :
  fst (scrape2 url max_retries st) = (false, "Failed after multiple attempts.")
  <-> _is_valid_url urlparse url = true
      /\ _should_skip_url url = false
      /\ max_retries <= 0.
Proof.
  unfold scrape.
  destruct (_is_valid_url urlparse url) eqn:Hvalid; cbn [negb].
  2:{ cbn [fst]. split; [discriminate|]. intros [H _]. discriminate H. }
  destruct (_should_skip_url url) eqn:Hskip.
  { cbn [fst]. split.
    - intros H. cbv [String.append] in H. discriminate H.
    - intros (_ & H & _). discriminate H. }
  destruct (Z.le_gt_cases max_retries 0) as [Hle|Hgt].
  - rewrite seqZ_nil by lia. cbn [fst scrape_loop]. split; [|reflexivity].
    intros _. repeat split. exact Hle.
  - destruct (scrape_loop_state url max_retries (Z.to_nat (max_retries - 1)) 0 st
                ltac:(lia)) as (k & _ & _ & Hr).
    replace (Z.of_nat (S (Z.to_nat (max_retries - 1)))) with max_retries in Hr by lia.
    split; [intros H; contradiction|]. intros (_ & _ & H). lia.
Qed.

(** X8: on the attempt reached after [k] timeouts, a request exception
    that is not a timeout, an HTTP error or a redirect loop ends [scrape] at
    once with "Request error: ..."; any other exception of the request, and
    any exception of the parser that is not one of [requests], ends it at
    once with "Error: ...". *)
Theorem scrape_other_errors url max_retries (k : nat) st :
  _is_valid_url urlparse url = true ->
  _should_skip_url url = false ->
  Z.of_nat k < max_retries ->
  timeouts2 url (gets st) k ->
  (forall msg,
     requests_get (gets st + k) url = Raise (RequestException msg) ->
     scrape2 url max_retries st =
       ((false, "Request error: " +:+ msg),
        State (S (gets st + k)) (sleeps st ++ replicate k 1)))
  /\ (forall msg,
       requests_get (gets st + k) url = Raise (Exception msg) ->
       scrape2 url max_retries st =
         ((false, "Error: " +:+ msg),
          State (S (gets st + k)) (sleeps st ++ replicate k 1)))
  /\ (forall r msg,
       requests_get (gets st + k) url = Ok r ->
       raise_for_status r = None ->
       contains "text/html" (lower (default "" (content_type r))) = true ->
       _extract_main_content (text r) = Raise (Exception msg) ->
       scrape2 url max_retries st =
         ((false, "Error: " +:+ msg),
          State (S (gets st + k)) (sleeps st ++ replicate k 1))).
Proof.
  intros Hvalid Hskip Hk Htime.
  rewrite (scrape_reaches urlparse requests_get raise_for_status _extract_main_content
             url max_retries k st Hvalid Hskip Hk Htime).
  unfold scrape_attempt, try_scrape. cbn [gets sleeps].
  split; [|split].
  - intros msg ->. reflexivity.
  - intros msg ->. reflexivity.
  - intros r msg -> -> -> ->. reflexivity.
Qed.

Lemma try_scrape_success_response url st content st' :
  try_scrape2 url st = (Ok (true, content), st') ->
  exists r cleaned,
    requests_get (gets st) url = Ok r
    /\ raise_for_status r = None
    /\ contains "text/html" (lower (default "" (content_type r))) = true
    /\ _extract_main_content (text r) = Ok cleaned
    /\ 100 <= len cleaned
    /\ content = (if 15000 <? len cleaned then slice_to cleaned 15000 +:+ "..."
                  else cleaned).
Proof.
  unfold try_scrape. intros H.
  destruct (requests_get (gets st) url) as [r|e]; [|discriminate].
  destruct (raise_for_status r) eqn:Hrfs; [discriminate|].
  destruct (contains "text/html" (lower (default "" (content_type r)))) eqn:Hhtml;
    cbn [negb] in H; [|discriminate].
  destruct (_extract_main_content (text r)) as [cleaned|e] eqn:Hext; [|discriminate].
  destruct (String.eqb cleaned "" || (len cleaned <? 100)) eqn:Hshort; [discriminate|].
  apply orb_false_elim in Hshort as [_ Hlen]. apply Z.ltb_ge in Hlen.
  exists r, cleaned. repeat split; try assumption; try reflexivity. congruence.
Qed.

(** X9: [scrape] succeeds only on an HTML page.  When it returns success
    the URL was valid and not skipped, and the answer to the last request
    passed [raise_for_status], declared [text/html] and was parsed into at
    least 100 characters, of which the result is the (possibly cut) text. *)
Theorem scrape_success_from_html url max_retries st content st' :
  scrape2 url max_retries st = ((true, content), st') ->
  _is_valid_url urlparse url = true
  /\ _should_skip_url url = false
  /\ exists r cleaned,
       requests_get (Nat.pred (gets st')) url = Ok r
       /\ raise_for_status r = None
       /\ contains "text/html" (lower (default "" (content_type r))) = true
       /\ _extract_main_content (text r) = Ok cleaned
       /\ 100 <= len cleaned
       /\ content = (if 15000 <? len cleaned then slice_to cleaned 15000 +:+ "..."
                     else cleaned).
Proof.
  unfold scrape. intros H.
  destruct (_is_valid_url urlparse url); cbn [negb] in H; [|discriminate].
  destruct (_should_skip_url url); [discriminate|].
  split; [reflexivity|]. split; [reflexivity|].
  apply scrape_loop_success in H as [st1 H].
  pose proof (try_scrape_state _ _ _ _ _ _ _ H) as ->.
  apply try_scrape_success_response in H. exact H.
Qed.

End ScraperMore.

(** Witness of [scrape_other_errors]: a timeout, then no connection. *)
Lemma scrape_other_errors_witness :
  Scraper.scrape Scenario.urlparse Scenario.slow_refused_page Scenario.page_status
    Scenario.extract_sample "https://example.com" Scraper.default_max_retries
    (Scraper.State 0 [])
  = ((false, "Request error: Connection refused"), Scraper.State 2 [1]).
Proof.
  refine (proj1 (scrape_other_errors Scenario.urlparse Scenario.slow_refused_page
            Scenario.page_status Scenario.extract_sample "https://example.com"
            Scraper.default_max_retries 1 (Scraper.State 0 []) _ _ _ _)
            "Connection refused" _).
  - reflexivity.
  - reflexivity.
  - reflexivity.
  - apply slow_page_timeouts. reflexivity.
  - reflexivity.
Defined.

(** Witness of [scrape_success_from_html]: the sample page. *)
Lemma scrape_success_from_html_witness :
  Scraper._is_valid_url Scenario.urlparse "https://example.com" = true
  /\ Scraper._should_skip_url "https://example.com" = false
  /\ exists r cleaned,
       Scenario.quick_page 0%nat "https://example.com" = Py.Ok r
       /\ Scenario.page_status r = None
       /\ Py.contains "text/html"
            (Py.lower (default "" (Scraper.content_type r))) = true
       /\ Scenario.extract_sample (Scraper.text r) = Py.Ok cleaned
       /\ 100 <= Py.len cleaned
       /\ Scenario.sample_text
          = (if 15000 <? Py.len cleaned then Py.slice_to cleaned 15000 +:+ "..."
             else cleaned).
Proof.
  apply (scrape_success_from_html Scenario.urlparse Scenario.quick_page
           Scenario.page_status Scenario.extract_sample "https://example.com"
           Scraper.default_max_retries (Scraper.State 0 []) Scenario.sample_text
           (Scraper.State 1 [])).
  reflexivity.
Defined.

(** No attempt allowed: the loop is skipped. *)
Example scrape_no_attempt :
  Scraper.scrape Scenario.urlparse Scenario.quick_page Scenario.page_status
    Scenario.extract_sample "https://example.com" 0 (Scraper.State 0 [])
  = ((false, "Failed after multiple attempts."), Scraper.State 0 []).
Proof. reflexivity. Qed.

(** * Further properties of the Gemini client *)

Lemma prefix_append (s t : string) : String.prefix s (s +:+ t) = true.
Proof.
  induction s as [|c s IH]; [destruct t; reflexivity|].
  change (String c s +:+ t) with (String c (s +:+ t)). cbn [String.prefix].
  destruct (Ascii.ascii_dec c c) as [_|Hne]; [exact IH|contradiction].
Qed.

Lemma contains_unfold (sub s : string) :
  Py.contains sub s =
  String.prefix sub s
  || match s with
     | EmptyString => false
     | String _ s' => Py.contains sub s'
     end.
Proof. destruct s; reflexivity. Qed.

Lemma contains_here (sub t : string) : Py.contains sub (sub +:+ t) = true.
Proof. rewrite contains_unfold, prefix_append. reflexivity. Qed.

Lemma contains_append_r (sub a b : string) :
  Py.contains sub b = true -> Py.contains sub (a +:+ b) = true.
Proof.
  intros H. induction a as [|c a IH]; [exact H|].
  change (String c a +:+ b) with (String c (a +:+ b)).
  rewrite contains_unfold, IH. apply orb_true_r.
Qed.

Section SummarizerMore.
Import Py Summarizer.
Variable generate_content : nat -> string -> res response.
Variable str : pyval -> string.

#[local] Abbreviation summarize2 := (summarize generate_content).
#[local] Abbreviation create_comprehensive_summary2 :=
  (create_comprehensive_summary generate_content str).

(** X10: [summarize] sends exactly one prompt, whatever the outcome, and
    reports success only with the very text the provider answered to that
    prompt, of at least 50 characters. *)
Theorem summarize_one_call content query is_brief st :
  snd (summarize2 content query is_brief st)
    = State (prompts st ++ [summary_prompt content query is_brief])
  /\ forall summary,
       fst (summarize2 content query is_brief st) = (true, summary) ->
       generate_content (length (prompts st)) (summary_prompt content query is_brief)
         = Ok (WithText summary)
       /\ 50 <= len summary.
Proof.
  unfold summarize, call_generate_content.
  fold (summary_prompt content query is_brief).
  destruct (generate_content (length (prompts st))
              (summary_prompt content query is_brief)) as [[|text]|e]; cbn [fst snd].
  - split; [reflexivity|]. discriminate.
  - destruct (String.eqb text "" || (len text <? 50)) eqn:Hshort; cbn [fst snd].
    + split; [reflexivity|]. discriminate.
    + split; [reflexivity|]. intros summary [= <-].
      apply orb_false_elim in Hshort as [_ Hlen]. apply Z.ltb_ge in Hlen.
      split; [reflexivity|exact Hlen].
  - split; [reflexivity|]. discriminate.
Qed.

(** X11: the prompts embed their inputs: the summary prompt contains
    the query, the content and the length directive chosen by [is_brief];
    the synthesis prompt contains the query and the combined summaries. *)
Theorem prompts_embed_inputs content query is_brief combined :
  contains query (summary_prompt content query is_brief) = true
  /\ contains content (summary_prompt content query is_brief) = true
  /\ contains (if is_brief then "brief and concise (100-150 words)"
               else "comprehensive (300-500 words)")
       (summary_prompt content query is_brief) = true
  /\ contains query (_create_comprehensive_prompt combined query) = true
  /\ contains combined (_create_comprehensive_prompt combined query) = true.
Proof.
  unfold summary_prompt, _create_summary_prompt, _create_comprehensive_prompt.
  repeat split;
    repeat (first [apply contains_here | apply contains_append_r]).
Qed.

Lemma combine_app (l1 l2 : list dict) :
  forall i acc,
    combine str i (l1 ++ l2) acc =
    match combine str i l1 acc with
    | Ok acc' => combine str (i + Z.of_nat (length l1)) l2 acc'
    | Raise e => Raise e
    end.
Proof.
  induction l1 as [|d l1 IH]; intros i acc.
  - simpl. rewrite Z.add_0_r. reflexivity.
  - rewrite <- app_comm_cons. cbn [combine].
    destruct (getitem d "title"); [|reflexivity].
    destruct (getitem d "summary"); [|reflexivity].
    destruct (getitem d "link"); [|reflexivity].
    rewrite IH.
    replace (i + 1 + Z.of_nat (length l1)) with (i + Z.of_nat (length (d :: l1)))
      by (cbn [length]; lia).
    reflexivity.
Qed.

Lemma combine_complete (l : list dict) :
  forallb complete_summary l = true ->
  forall i acc, exists acc', combine str i l acc = Ok acc'.
Proof.
  induction l as [|d l IH]; intros Hl i acc; cbn [combine].
  - eauto.
  - cbn [forallb] in Hl. apply andb_prop in Hl as [Hd Hl].
    unfold complete_summary in Hd. unfold getitem.
    destruct (d !! "title"); [|discriminate].
    destruct (d !! "summary"); [|discriminate].
    destruct (d !! "link"); [|discriminate].
    apply IH. exact Hl.
Qed.

Lemma combine_missing_key (d : dict) (l : list dict) i acc k :
  first_missing_key d = Some k ->
  combine str i (d :: l) acc = Raise (KeyError k).
Proof.
  unfold first_missing_key. cbn [combine]. unfold getitem.
  destruct (d !! "title"); [|intros [= <-]; reflexivity].
  destruct (d !! "summary"); [|intros [= <-]; reflexivity].
  destruct (d !! "link"); [discriminate|intros [= <-]; reflexivity].
Qed.

(** X12: [create_comprehensive_summary] on summaries that all carry
    title, summary and link sends exactly one prompt.  When one of them
    lacks a key it sends nothing and fails with the name of the first key
    missing, in the order title, summary, link, of the first such
    summary. *)
Theorem create_comprehensive_summary_keys (l1 : list dict) (d : dict) (l2 : list dict)
    query st :
  forallb complete_summary l1 = true ->
  (complete_summary d = true -> forallb complete_summary l2 = true ->
   exists combined,
     combine str 1 (l1 ++ d :: l2) "" = Ok combined
     /\ snd (create_comprehensive_summary2 (l1 ++ d :: l2) query st)
        = State (prompts st ++ [_create_comprehensive_prompt combined query]))
  /\ (forall k,
        first_missing_key d = Some k ->
        create_comprehensive_summary2 (l1 ++ d :: l2) query st
          = ((false, "Failed to create comprehensive summary: '" +:+ k +:+ "'"), st)).
Proof.
  intros Hl1. split.
  - intros Hd Hl2.
    assert (Hall : forallb complete_summary (l1 ++ d :: l2) = true).
    { rewrite forallb_app. cbn [forallb]. rewrite Hl1, Hd, Hl2. reflexivity. }
    destruct (combine_complete _ Hall 1 "") as [combined Hc].
    exists combined. split; [exact Hc|].
    unfold create_comprehensive_summary, call_generate_content. rewrite Hc.
    destruct (generate_content _ _) as [[|text]|e]; reflexivity.
  - intros k Hk.
    unfold create_comprehensive_summary. rewrite combine_app.
    destruct (combine_complete _ Hl1 1 "") as [acc Hacc]. rewrite Hacc.
    rewrite (combine_missing_key _ _ _ _ _ Hk). reflexivity.
Qed.

(** X13: sources are numbered from [i] in input order: the summary that
    comes after [l1] gets the number [i + len(l1)], and its three lines are
    appended after the text built for [l1]. *)
Theorem combine_numbering (l1 : list dict) (d : dict) (l2 : list dict) i acc
    title summary link :
  forallb complete_summary l1 = true ->
  d !! "title" = Some title -> d !! "summary" = Some summary ->
  d !! "link" = Some link ->
  exists before,
    combine str i l1 acc = Ok before
    /\ combine str i (l1 ++ d :: l2) acc =
       combine str (i + Z.of_nat (length l1) + 1) l2
         (((before
            +:+ (nl +:+ nl +:+ "SOURCE " +:+ pretty (i + Z.of_nat (length l1)) +:+ ": "
                 +:+ str title +:+ nl))
           +:+ (str summary +:+ nl))
          +:+ ("URL: " +:+ str link +:+ nl)).
Proof.
  intros Hl1 Ht Hs Hl.
  destruct (combine_complete _ Hl1 i acc) as [before Hb].
  exists before. split; [exact Hb|].
  rewrite combine_app, Hb. cbn [combine]. unfold getitem. rewrite Ht, Hs, Hl.
  reflexivity.
Qed.

End SummarizerMore.

(** Witness of [create_comprehensive_summary_keys]: a third summary
    without its [summary] field stops the synthesis before any prompt. *)
Lemma create_comprehensive_summary_keys_witness :
  Summarizer.create_comprehensive_summary Scenario.terse_provider Scenario.str_mock
    (Scenario.two_summaries ++ Scenario.unsummarized :: []) "test query"
    (Summarizer.State [])
  = ((false, "Failed to create comprehensive summary: 'summary'"), Summarizer.State []).
Proof.
  refine (proj2 (create_comprehensive_summary_keys Scenario.terse_provider
            Scenario.str_mock Scenario.two_summaries Scenario.unsummarized []
            "test query" (Summarizer.State []) _) "summary" _).
  - reflexivity.
  - reflexivity.
Defined.

(** Witness of [combine_numbering]: the third of three summaries. *)
Lemma combine_numbering_witness :
  exists before,
    Summarizer.combine Scenario.str_mock 1 Scenario.two_summaries "" = Py.Ok before
    /\ Summarizer.combine Scenario.str_mock 1
         (Scenario.two_summaries
            ++ <["summary" := Py.PyStr "Summary of source 3"]> Scenario.unsummarized :: [])
         "" =
       Summarizer.combine Scenario.str_mock
         (1 + Z.of_nat (length Scenario.two_summaries) + 1) []
         (((before
            +:+ (Summarizer.nl +:+ Summarizer.nl +:+ "SOURCE "
                 +:+ pretty (1 + Z.of_nat (length Scenario.two_summaries)) +:+ ": "
                 +:+ Scenario.str_mock (Py.PyStr "Source 3") +:+ Summarizer.nl))
           +:+ (Scenario.str_mock (Py.PyStr "Summary of source 3") +:+ Summarizer.nl))
          +:+ ("URL: " +:+ Scenario.str_mock (Py.PyStr "https://example.com/3")
               +:+ Summarizer.nl)).
Proof.
  apply (combine_numbering Scenario.str_mock Scenario.two_summaries
           (<["summary" := Py.PyStr "Summary of source 3"]> Scenario.unsummarized) [] 1 ""
           (Py.PyStr "Source 3") (Py.PyStr "Summary of source 3")
           (Py.PyStr "https://example.com/3")).
  - reflexivity.
  - reflexivity.
  - reflexivity.
  - reflexivity.
Defined.

(** * Further properties of the orchestrator *)

Lemma scraped_urls_app (cs1 cs2 : list Agent.call) :
  Agent.scraped_urls (cs1 ++ cs2) = Agent.scraped_urls cs1 ++ Agent.scraped_urls cs2.
Proof.
  induction cs1 as [|c cs1 IH]; [reflexivity|].
  rewrite <- app_comm_cons. destruct c; cbn [Agent.scraped_urls]; rewrite IH; reflexivity.
Qed.

Lemma summary_entry_complete (item : Py.dict) :
  Summarizer.complete_summary (Agent.summary_entry item) = true.
Proof. reflexivity. Qed.

Lemma summary_entries_complete (items : list Py.dict) :
  forallb Summarizer.complete_summary (Agent.summary_entry <$> items) = true.
Proof.
  induction items as [|item items IH]; [reflexivity|].
  rewrite fmap_cons. cbn [forallb]. rewrite IH, summary_entry_complete. reflexivity.
Qed.

(** X19: the content preview never exceeds 1,003 characters; content of
    at most 1,000 characters is kept as it is; longer content is cut to its
    first 1,000 characters followed by three dots. *)
Theorem preview_bound (content : string) :
  Py.len (Agent.preview content) <= 1003
  /\ (Py.len content <= 1000 -> Agent.preview content = content)
  /\ (1000 < Py.len content ->
      Py.len (Agent.preview content) = 1003
      /\ Py.slice_to (Agent.preview content) 1000 = Py.slice_to content 1000
      /\ Py.str_drop (Z.to_nat 1000) (Agent.preview content) = "...").
Proof.
  unfold Agent.preview.
  destruct (Z.ltb_spec 1000 (Py.len content)) as [Hlong|Hshort].
  - assert (Hcut : Py.len (Py.slice_to content 1000) = 1000)
      by (apply len_slice_to; lia).
    rewrite len_append, Hcut. change (Py.len "...") with 3.
    split; [lia|]. split; [lia|]. intros _. split; [lia|].
    assert (Hn : Z.to_nat 1000 = String.length (Py.slice_to content 1000))
      by (unfold Py.len in Hcut; lia).
    split.
    + unfold Py.slice_to at 1. rewrite Hn. 
      generalize (Py.slice_to content 1000). intros s.
      induction s as [|c s IH]; [reflexivity|].
      change (String c s +:+ "...") with (String c (s +:+ "...")).
      cbn [String.length Py.str_take]. rewrite IH. reflexivity.
    + rewrite Hn. apply str_drop_append.
  - split; [lia|]. split; [reflexivity|]. lia.
Qed.

Section AgentMore.
Import Py Agent.
Context {World : Type}.
Variable get_top_results : string -> Z -> World -> list dict * World.
Variable scrape : pyval -> World -> (bool * string) * World.
Variable summarize : string -> string -> bool -> World -> (bool * string) * World.
Variable create_comprehensive_summary :
  list dict -> string -> World -> (bool * string) * World.

#[local] Abbreviation process_result2 := (process_result scrape summarize).
#[local] Abbreviation process_results2 := (process_results scrape summarize).
#[local] Abbreviation run_hits2 := (run_hits scrape summarize).
#[local] Abbreviation research2 :=
  (research get_top_results scrape summarize create_comprehensive_summary).

(** One turn of the loop: exactly one call to the scraper, with the
    hit's link, and the entry of the item when it succeeded. *)
Lemma process_result_trace query brief (hit : dict) sums st :
  is_hit hit = true ->
  exists item st' link tail,
    process_result2 query brief hit sums st
      = (Ok (item, sums ++ (if succeeded item then [summary_entry item] else [])), st')
    /\ hit !! "link" = Some link
    /\ calls st' = calls st ++ CallScrape link :: tail
    /\ scraped_urls tail = [].
Proof.
  intros Hhit.
  destruct (is_hit_keys hit Hhit) as (t & l & s & Ht & Hl & Hs).
  destruct (scrape l (world st)) as [[ok1 content] w1] eqn:Hscr.
  destruct ok1.
  - destruct (summarize content query brief w1) as [[ok2 summary] w2] eqn:Hsum.
    destruct ok2.
    + exists (<["content" := PyStr (preview content)]>
                (<["summary" := PyStr summary]>
                   (<["success" := PyBool true]> (base_item t l s)))).
      eexists _, l, [CallSummarize content query brief]. split.
      { rewrite (process_result_ok scrape summarize query brief hit sums st
                   t l s content w1 summary w2 Ht Hl Hs Hscr Hsum).
        reflexivity. }
      split; [exact Hl|]. split; [|reflexivity].
      cbn [calls]. rewrite <- app_assoc. reflexivity.
    + exists (<["error" := PyStr summary]> (base_item t l s)).
      eexists _, l, [CallSummarize content query brief]. split.
      { rewrite (process_result_summarize_failed scrape summarize query brief hit sums st
                   t l s content w1 summary w2 Ht Hl Hs Hscr Hsum).
        replace (succeeded (<["error" := PyStr summary]> (base_item t l s)))
          with false by reflexivity.
        rewrite app_nil_r. reflexivity. }
      split; [exact Hl|]. split; [|reflexivity].
      cbn [calls]. rewrite <- app_assoc. reflexivity.
  - exists (<["error" := PyStr content]> (base_item t l s)).
    eexists _, l, []. split.
    { rewrite (process_result_scrape_failed scrape summarize query brief hit sums st
                 t l s content w1 Ht Hl Hs Hscr).
      replace (succeeded (<["error" := PyStr content]> (base_item t l s)))
        with false by reflexivity.
      rewrite app_nil_r. reflexivity. }
    split; [exact Hl|]. split; reflexivity.
Qed.

Lemma run_hits_trace query brief (hits : list dict) :
  forallb is_hit hits = true ->
  forall sums st,
  exists items st' urls,
    run_hits2 query brief hits sums st
      = (Ok (items, sums ++ (summary_entry <$> List.filter succeeded items)), st')
    /\ Forall2 (fun (hit : dict) url => hit !! "link" = Some url) hits urls
    /\ scraped_urls (calls st') = scraped_urls (calls st) ++ urls.
Proof.
  induction hits as [|hit hits IH]; intros Hhits sums st; cbn [run_hits].
  - exists [], st, []. unfold ret. cbn [List.filter fmap list_fmap].
    rewrite !app_nil_r. split; [reflexivity|]. split; [constructor|reflexivity].
  - cbn [forallb] in Hhits. apply andb_prop in Hhits as [Hhit Hhits].
    destruct (process_result_trace query brief hit sums st Hhit)
      as (item & st1 & link & tail & Hstep & Hl & Hcalls & Htail).
    destruct (IH Hhits (sums ++ (if succeeded item then [summary_entry item] else [])) st1)
      as (items & st2 & urls & Hrun & Hurls & Hscraped).
    exists (item :: items), st2, (link :: urls).
    unfold bind, ret. rewrite Hstep, Hrun.
    split.
    { cbn [List.filter]. destruct (succeeded item).
      - rewrite fmap_cons, <- app_assoc. reflexivity.
      - rewrite app_nil_r. reflexivity. }
    split; [constructor; assumption|].
    rewrite Hscraped, Hcalls, scraped_urls_app. cbn [scraped_urls].
    rewrite Htail, <- app_assoc. reflexivity.
Qed.

Lemma synthesize_ok (sums : list dict) query st :
  exists ok cs st',
    synthesize create_comprehensive_summary sums query st = (Ok (ok, cs), st')
    /\ scraped_urls (calls st') = scraped_urls (calls st)
    /\ (sums <> [] ->
        calls st' = calls st ++ [CallCreateComprehensiveSummary sums query]).
Proof.
  unfold synthesize. destruct sums as [|e sums].
  - exists false, PyNone, st. unfold ret. repeat split; congruence.
  - unfold bind, ret, call_create_comprehensive_summary.
    destruct (create_comprehensive_summary (e :: sums) query (world st)) as [[ok cs] w].
    eexists _, _, _. split; [reflexivity|]. cbn [calls].
    rewrite scraped_urls_app. cbn [scraped_urls]. rewrite app_nil_r.
    split; [reflexivity|]. intros _. reflexivity.
Qed.

(** X14: every hit is scraped, once and in rank order, whatever happens
    to the hits before it: the URLs the run passes to the scraper are the
    links of the hits. *)
Theorem research_scrapes_every_hit query num_results brief st (hits : list dict) w :
  get_top_results query num_results (world st) = (hits, w) ->
  forallb is_hit hits = true ->
  exists result st' urls,
    research2 query num_results brief st = (Ok result, st')
    /\ Forall2 (fun (hit : dict) url => hit !! "link" = Some url) hits urls
    /\ scraped_urls (calls st') = scraped_urls (calls st) ++ urls.
Proof.
  intros Hget Hhits.
  destruct hits as [|hit hits].
  - rewrite (research_zero_hits _ _ _ _ _ _ _ _ _ Hget).
    eexists _, _, []. split; [reflexivity|]. split; [constructor|].
    cbn [calls]. rewrite scraped_urls_app. reflexivity.
  - rewrite (research_some_hits _ _ _ _ _ _ _ _ _ _ Hget) by discriminate.
    rewrite process_results_all.
    destruct (run_hits_trace query brief (hit :: hits) Hhits []
                (State w (calls st ++ [CallGetTopResults query num_results])))
      as (items & st1 & urls & Hrun & Hurls & Hscraped).
    rewrite Hrun.
    destruct (synthesize_ok ([] ++ (summary_entry <$> List.filter succeeded items))
                query st1) as (ok & cs & st2 & Hsyn & Hkeep & _).
    rewrite Hsyn. eexists _, _, urls. split; [reflexivity|]. split; [exact Hurls|].
    rewrite Hkeep, Hscraped. cbn [calls]. rewrite scraped_urls_app. cbn [scraped_urls].
    rewrite app_nil_r. reflexivity.
Qed.

(** X15: the synthesis is given one entry per successful item of
    [results], in rank order, carrying that item's title, link and summary;
    when there is such an item, the synthesis call is the last call of the
    run. *)
Theorem research_synthesis_input query num_results brief st (hits : list dict) w :
  get_top_results query num_results (world st) = (hits, w) ->
  forallb is_hit hits = true ->
  exists result st' items,
    research2 query num_results brief st = (Ok result, st')
    /\ result !! "results" = Some (PyList (PyDict <$> items))
    /\ (List.filter succeeded items <> [] ->
        exists before,
          calls st' =
            before ++ [CallCreateComprehensiveSummary
                         (summary_entry <$> List.filter succeeded items) query]).
Proof.
  intros Hget Hhits.
  destruct hits as [|hit hits].
  - rewrite (research_zero_hits _ _ _ _ _ _ _ _ _ Hget).
    eexists _, _, []. split; [reflexivity|]. split; [reflexivity|].
    intros H. contradiction H. reflexivity.
  - rewrite (research_some_hits _ _ _ _ _ _ _ _ _ _ Hget) by discriminate.
    rewrite process_results_all.
    destruct (run_hits_trace query brief (hit :: hits) Hhits []
                (State w (calls st ++ [CallGetTopResults query num_results])))
      as (items & st1 & urls & Hrun & _ & _).
    rewrite Hrun. rewrite app_nil_l.
    destruct (synthesize_ok (summary_entry <$> List.filter succeeded items)
                query st1) as (ok & cs & st2 & Hsyn & _ & Hlast).
    rewrite Hsyn. eexists _, _, items. split; [reflexivity|]. split; [reflexivity|].
    intros Hne. exists (calls st1). apply Hlast.
    destruct (List.filter succeeded items); [contradiction|discriminate].
Qed.

Lemma process_result_missing_key query brief (hit : dict) sums st k :
  missing_hit_key hit = Some k ->
  process_result2 query brief hit sums st = (Raise (KeyError k), st).
Proof.
  unfold missing_hit_key, process_result, bind, getitem.
  destruct (hit !! "title"); [|intros [= <-]; reflexivity].
  destruct (hit !! "link"); [|intros [= <-]; reflexivity].
  destruct (hit !! "snippet"); [discriminate|intros [= <-]; reflexivity].
Qed.

(** X16: a hit that lacks title, link or snippet makes [research] raise
    [KeyError] for the first of these keys it lacks.  The hits before it
    have been processed, the hit itself is not scraped, and no result is
    returned. *)
Theorem research_malformed_hit query num_results brief st (hits1 : list dict)
    (hit : dict) (hits2 : list dict) w k :
  get_top_results query num_results (world st) = (hits1 ++ hit :: hits2, w) ->
  forallb is_hit hits1 = true ->
  missing_hit_key hit = Some k ->
  exists items1 sums1 st1,
    process_results2 (length hits1) 0 query brief (hits1 ++ hit :: hits2) []
      (State w (calls st ++ [CallGetTopResults query num_results]))
      = (Ok (items1 ++ hit :: hits2, sums1), st1)
    /\ research2 query num_results brief st = (Raise (KeyError k), st1).
Proof.
  intros Hget Hh1 Hk.
  set (st0 := State w (calls st ++ [CallGetTopResults query num_results])).
  destruct (run_hits_spec scrape summarize query brief hits1 Hh1 [] st0)
    as (items1 & sums1 & st1 & Hrun1 & _).
  exists items1, ([] ++ sums1), st1. split.
  - pose proof (process_results_run_hits scrape summarize query brief hits1 []
                  (hit :: hits2) [] st0) as H.
    rewrite app_nil_l in H. change (length (@nil dict)) with 0%nat in H.
    rewrite H, Hrun1. reflexivity.
  - rewrite (research_some_hits _ _ _ _ _ _ _ _ _ _ Hget)
      by (destruct hits1; discriminate).
    rewrite process_results_all. fold st0.
    rewrite run_hits_app, Hrun1. cbn [run_hits]. unfold bind.
    rewrite (process_result_missing_key _ _ _ _ _ _ Hk). reflexivity.
Qed.

(** X18: what the loop collects for the synthesis always carries
    title, link and summary, so that building the synthesis prompt from it
    cannot fail on a missing key. *)
Theorem research_synthesis_input_complete query num_results brief st
    (hits : list dict) w (str : pyval -> string) :
  get_top_results query num_results (world st) = (hits, w) ->
  forallb is_hit hits = true ->
  exists items sums st1 combined,
    process_results2 (length hits) 0 query brief hits []
      (State w (calls st ++ [CallGetTopResults query num_results]))
      = (Ok (items, sums), st1)
    /\ forallb Summarizer.complete_summary sums = true
    /\ Summarizer.combine str 1 sums "" = Ok combined.
Proof.
  intros _ Hhits. rewrite process_results_all.
  destruct (run_hits_trace query brief hits Hhits []
              (State w (calls st ++ [CallGetTopResults query num_results])))
    as (items & st1 & urls & Hrun & _ & _).
  rewrite Hrun, app_nil_l.
  assert (Hall : forallb Summarizer.complete_summary
                   (summary_entry <$> List.filter succeeded items) = true).
  { apply summary_entries_complete. }
  destruct (combine_complete str _ Hall 1 "") as [combined Hc].
  eexists _, _, _, combined. split; [reflexivity|]. split; [exact Hall|exact Hc].
Qed.

End AgentMore.


(** Witness of [research_scrapes_every_hit]: two hits, the second of
    which cannot be scraped; both are passed to the scraper. *)
Lemma research_scrapes_every_hit_witness :
  exists result st' urls,
    Scenario.research "two hits" = (Py.Ok result, st')
    /\ Forall2 (fun (hit : Py.dict) url => hit !! "link" = Some url)
         [Scenario.hit_a; Scenario.hit_b] urls
    /\ Agent.scraped_urls (Agent.calls st') = Agent.scraped_urls [] ++ urls.
Proof.
  apply (research_scrapes_every_hit Scenario.top_results Scenario.scrape_mock
           Scenario.summarize_mock Scenario.synthesis_mock
           "two hits" 5 false (Agent.State tt []) [Scenario.hit_a; Scenario.hit_b] tt).
  - reflexivity.
  - reflexivity.
Defined.

(** Witness of [research_synthesis_input], on the same run. *)
Lemma research_synthesis_input_witness :
  exists result st' items,
    Scenario.research "two hits" = (Py.Ok result, st')
    /\ result !! "results" = Some (Py.PyList (Py.PyDict <$> items))
    /\ (List.filter Agent.succeeded items <> [] ->
        exists before,
          Agent.calls st' =
            before ++ [Agent.CallCreateComprehensiveSummary
                         (Agent.summary_entry <$> List.filter Agent.succeeded items)
                         "two hits"]).
Proof.
  apply (research_synthesis_input Scenario.top_results Scenario.scrape_mock
           Scenario.summarize_mock Scenario.synthesis_mock
           "two hits" 5 false (Agent.State tt []) [Scenario.hit_a; Scenario.hit_b] tt).
  - reflexivity.
  - reflexivity.
Defined.

(** Witness of [research_malformed_hit]: the second of three hits has no
    title. *)
Lemma research_malformed_hit_witness :
  exists items1 sums1 st1,
    Agent.process_results Scenario.scrape_mock Scenario.summarize_mock
      (length [Scenario.hit_a]) 0 "any query" false
      ([Scenario.hit_a] ++ Scenario.untitled_hit :: [Scenario.hit_b]) []
      (Agent.State tt ([] ++ [Agent.CallGetTopResults "any query" 5]))
      = (Py.Ok (items1 ++ Scenario.untitled_hit :: [Scenario.hit_b], sums1), st1)
    /\ Agent.research Scenario.top_results_untitled Scenario.scrape_mock
         Scenario.summarize_mock Scenario.synthesis_mock "any query" 5 false
         (Agent.State tt [])
       = (Py.Raise (Py.KeyError "title"), st1).
Proof.
  apply (research_malformed_hit Scenario.top_results_untitled Scenario.scrape_mock
           Scenario.summarize_mock Scenario.synthesis_mock
           "any query" 5 false (Agent.State tt []) [Scenario.hit_a]
           Scenario.untitled_hit [Scenario.hit_b] tt "title").
  - reflexivity.
  - reflexivity.
  - reflexivity.
Defined.

(** Witness of [research_synthesis_input_complete], on the run with two
    hits. *)
Lemma research_synthesis_input_complete_witness :
  exists items sums st1 combined,
    Agent.process_results Scenario.scrape_mock Scenario.summarize_mock
      (length [Scenario.hit_a; Scenario.hit_b]) 0 "two hits" false
      [Scenario.hit_a; Scenario.hit_b] []
      (Agent.State tt ([] ++ [Agent.CallGetTopResults "two hits" 5]))
      = (Py.Ok (items, sums), st1)
    /\ forallb Summarizer.complete_summary sums = true
    /\ Summarizer.combine Scenario.str_mock 1 sums "" = Py.Ok combined.
Proof.
  apply (research_synthesis_input_complete Scenario.top_results Scenario.scrape_mock
           Scenario.summarize_mock "two hits" 5 false (Agent.State tt [])
           [Scenario.hit_a; Scenario.hit_b] tt Scenario.str_mock).
  - reflexivity.
  - reflexivity.
Defined.
